(** * Smart Tourist Safety Monitoring System: the dashboard client (src/App.js)

    A shallow embedding of the session and data-synchronisation logic of the
    React component [App]: the values that arrive from the backend as JSON,
    the string operations the component calls, the component state with its
    setters, the event handlers split at their [await], and the expressions
    of the render function that compute what the dashboard shows. *)

From Stdlib Require Import ZArith QArith Ascii.
From stdpp Require Import base option gmap strings list pretty.

Local Open Scope string_scope.
Local Open Scope list_scope.
Local Open Scope Z_scope.

(** ** JavaScript values

    What [response.json()] produces.  Numbers are the integers (the dashboard
    aggregates are counts); [JSON.parse] never yields [NaN], and [-0] is
    falsy like [0]. *)

#[local] Unset Elimination Schemes.
Inductive JValue : Type :=
| JUndefined
| JNull
| JBool (b : bool)
| JNum (n : Z)
| JStr (s : string)
| JArr (items : list JValue)
| JObj (fields : gmap string JValue).
#[local] Set Elimination Schemes.

(** What a JavaScript operation throws, or a promise rejects with. *)
Inductive Exn : Type :=
| TypeError
| FetchError (message : string).

(** How an awaited promise settles. *)
Inductive Outcome (A : Type) : Type :=
| Fulfilled (value : A)
| Rejected (reason : Exn).
Arguments Fulfilled {A} value.
Arguments Rejected {A} reason.

(** ToBoolean, as used by [if (v)], [!v] and [a || b]. *)
Definition truthy (v : JValue) : bool :=
  match v with
  | JUndefined | JNull => false
  | JBool b => b
  | JNum n => negb (n =? 0)
  | JStr s => negb (String.eqb s "")
  | JArr _ | JObj _ => true
  end.

(** [a || b]. *)
Definition jsOr (a b : JValue) : JValue := if truthy a then a else b.

(** [v === 'literal']: strict equality with a string literal. *)
Definition strictEqStr (v : JValue) (lit : string) : bool :=
  match v with
  | JStr s => String.eqb s lit
  | _ => false
  end.
Infix "===" := strictEqStr (at level 70, no associativity).

(** [v.key]: reading a property throws a TypeError on [null] and
    [undefined]; an object yields its own property or [undefined].  Only own
    properties are modelled: none of the names the component reads
    (username, access_token, user, detail, and the four aggregates) is
    inherited from a prototype. *)
Definition getProp (v : JValue) (key : string) : option JValue :=
  match v with
  | JUndefined | JNull => None
  | JObj fields => Some (default JUndefined (fields !! key))
  | _ => Some JUndefined
  end.

(** ToString, as applied by template literals and [localStorage.setItem].
    The text is JavaScript's for strings, booleans, [null] and [undefined],
    for the integers a number holds exactly (up to 2^53 in absolute value),
    for objects that have no [toString] or [valueOf] property of their own,
    and for arrays of such values.  The properties that speak of the text of
    a token take the token to be a string. *)
Fixpoint toString (v : JValue) : string :=
  match v with
  | JUndefined => "undefined"
  | JNull => "null"
  | JBool true => "true"
  | JBool false => "false"
  | JNum n => pretty n
  | JStr s => s
  | JArr items =>
      String.concat ","
        (map (fun x => match x with
                       | JUndefined | JNull => ""
                       | _ => toString x
                       end) items)
  | JObj _ => "[object Object]"
  end.

(** ** Strings

    A character of a [string] stands for the UTF-16 code unit of the same
    number, so the strings modelled are those whose code units are below
    256 (Latin-1). *)

Definition inRange (lo hi n : N) : bool := ((lo <=? n) && (n <=? hi))%N.

(** The characters [String.prototype.trim] strips: TAB, LF, VT, FF, CR,
    SPACE and NO-BREAK SPACE. *)
Definition isWhiteSpace (c : ascii) : bool :=
  let n := N_of_ascii c in
  (inRange 9 13 n || (n =? 32) || (n =? 160))%N.

(** Lower-casing of one code unit of Latin-1: A-Z, and the capitals U+00C0
    to U+00DE except the multiplication sign U+00D7. *)
Definition toLowerChar (c : ascii) : ascii :=
  let n := N_of_ascii c in
  if (inRange 65 90 n || (inRange 192 222 n && negb (n =? 215)))%N
  then ascii_of_N (n + 32)
  else c.

Fixpoint trimStart (s : string) : string :=
  match s with
  | EmptyString => EmptyString
  | String c s' => if isWhiteSpace c then trimStart s' else s
  end.

Fixpoint trimEnd (s : string) : string :=
  match s with
  | EmptyString => EmptyString
  | String c s' =>
      match trimEnd s' with
      | EmptyString => if isWhiteSpace c then EmptyString else String c EmptyString
      | r => String c r
      end
  end.

Definition trim (s : string) : string := trimEnd (trimStart s).

(** [s.includes(sub)]. *)
Fixpoint includes (s sub : string) : bool :=
  String.prefix sub s ||
  match s with
  | EmptyString => false
  | String _ s' => includes s' sub
  end.

(** [parts.join(sep)]. *)
Definition join (sep : string) (parts : list string) : string :=
  String.concat sep parts.

(** ** Strings beyond Latin-1

    The tourist list compares names with the search query after
    [String.prototype.toLowerCase].  On Latin-1 that conversion works code
    unit by code unit; beyond it does not: a capital sigma becomes the final
    small sigma where a word ends.  Names and queries are therefore strings
    over a wider alphabet, Latin-1 together with the Greek letters alpha to
    omega. *)

Module Greek.
Inductive letter : Type :=
| Alpha | Beta | Gamma | Delta | Epsilon | Zeta | Eta | Theta
| Iota | Kappa | Lambda | Mu | Nu | Xi | Omicron | Pi
| Rho | Sigma | Tau | Upsilon | Phi | Chi | Psi | Omega.

(** The place of a letter in its block: U+03A2 is unassigned, and U+03C2
    is the final small sigma, so sigma follows rho at distance two. *)
Definition offset (l : letter) : N :=
  match l with
  | Alpha => 0 | Beta => 1 | Gamma => 2 | Delta => 3 | Epsilon => 4
  | Zeta => 5 | Eta => 6 | Theta => 7 | Iota => 8 | Kappa => 9
  | Lambda => 10 | Mu => 11 | Nu => 12 | Xi => 13 | Omicron => 14
  | Pi => 15 | Rho => 16 | Sigma => 18 | Tau => 19 | Upsilon => 20
  | Phi => 21 | Chi => 22 | Psi => 23 | Omega => 24
  end%N.

#[global] Instance letter_eq_dec : EqDecision letter.
Proof. solve_decision. Defined.
End Greek.

Module Text.

(** A UTF-16 code unit: one of Latin-1 (U+0000 to U+00FF), a Greek capital
    (U+0391 to U+03A9), a Greek small letter (U+03B1 to U+03C9, the sigma
    being U+03C3), or the final small sigma (U+03C2). *)
Inductive codeUnit : Type :=
| Latin1 (c : ascii)
| Capital (l : Greek.letter)
| Small (l : Greek.letter)
| FinalSigma.

#[global] Instance codeUnit_eq_dec : EqDecision codeUnit.
Proof. solve_decision. Defined.

Definition codePoint (u : codeUnit) : N :=
  match u with
  | Latin1 c => N_of_ascii c
  | Capital l => 913 + Greek.offset l
  | Small l => 945 + Greek.offset l
  | FinalSigma => 962
  end%N.

Definition t : Type := list codeUnit.

(** A string of Latin-1 characters as a string of code units. *)
Fixpoint latin1 (s : string) : t :=
  match s with
  | EmptyString => []
  | String c s' => Latin1 c :: latin1 s'
  end.

(** The code units that are cased letters (Unicode property Cased): in
    Latin-1 the letters A-Z and a-z, the ordinal indicators and the micro
    sign, and the letters from U+00C0 on except the multiplication and
    division signs. *)
Definition cased (u : codeUnit) : bool :=
  match u with
  | Latin1 c =>
      let n := N_of_ascii c in
      (inRange 65 90 n || inRange 97 122 n ||
       (n =? 170) || (n =? 181) || (n =? 186) ||
       inRange 192 214 n || inRange 216 246 n || inRange 248 255 n)%N
  | Capital _ | Small _ | FinalSigma => true
  end.

(** The code units a word may contain besides its letters (Unicode
    property Case_Ignorable): apostrophe, full stop, colon, circumflex,
    grave accent, diaeresis, soft hyphen, macron, acute accent, middle dot
    and cedilla. *)
Definition caseIgnorable (u : codeUnit) : bool :=
  match u with
  | Latin1 c =>
      let n := N_of_ascii c in
      ((n =? 39) || (n =? 46) || (n =? 58) || (n =? 94) || (n =? 96) ||
       (n =? 168) || (n =? 173) || (n =? 175) || (n =? 180) ||
       (n =? 183) || (n =? 184))%N
  | Capital _ | Small _ | FinalSigma => false
  end.

(** Going away from a position, a cased letter comes next, after at most
    some case-ignorable code units. *)
Fixpoint casedLetterNext (s : t) : bool :=
  match s with
  | [] => false
  | u :: rest => if caseIgnorable u then casedLetterNext rest else cased u
  end.

(** Lower-casing of one code unit; [final] tells whether a word ends
    there. *)
Definition toLowerUnit (final : bool) (u : codeUnit) : codeUnit :=
  match u with
  | Latin1 c => Latin1 (toLowerChar c)
  | Capital Greek.Sigma => if final then FinalSigma else Small Greek.Sigma
  | Capital l => Small l
  | Small _ | FinalSigma => u
  end.

(** Lower-casing of [s], which follows the code units [before] (the
    nearest first).  A word ends at a code unit that has a cased letter
    before it and none after it. *)
Fixpoint toLowerFrom (before s : t) : t :=
  match s with
  | [] => []
  | u :: rest =>
      toLowerUnit (casedLetterNext before && negb (casedLetterNext rest)) u
        :: toLowerFrom (u :: before) rest
  end.

(** [s.toLowerCase()]. *)
Definition toLowerCase (s : t) : t := toLowerFrom [] s.

(** [s.startsWith(sub)] and [s.includes(sub)]. *)
Fixpoint startsWith (s sub : t) : bool :=
  match sub, s with
  | [], _ => true
  | _ :: _, [] => false
  | v :: sub', u :: s' => bool_decide (u = v) && startsWith s' sub'
  end.

Fixpoint includes (s sub : t) : bool :=
  startsWith s sub ||
  match s with
  | [] => false
  | _ :: s' => includes s' sub
  end.

End Text.

Coercion Text.latin1 : string >-> Text.t.

(** ** Entities

    The tourist and incident collections are taken as lists of records: the
    component calls [filter], [map] and [length] on them and reads the
    fields below.  A response whose body is not an array of such records
    is not modelled.  The status and the severity stay JavaScript values,
    since they are compared with [===] and may be missing; the name of a
    tourist is a string over the wider alphabet, since the tourist list
    lower-cases it. *)

Module Tourist.
Record t : Type := mk {
  id : string;
  name : Text.t;
  location : Q * Q;
  status : JValue;
  lastUpdate : string;
  phone : string;
  safetyScore : Z
}.
End Tourist.

Module Incident.
Record t : Type := mk {
  id : string;
  touristName : string;
  type : string;
  location : Q * Q;
  timestamp : string;
  status : JValue;
  severity : JValue
}.
End Incident.

(** Mock data (fallback if the API is not available). *)
Definition mockTourists : list Tourist.t :=
  [ Tourist.mk "1" "John Doe" (286139 # 10000, 772090 # 10000)%Q
      (JStr "safe") "2 mins ago" "+91-9876543210" 85;
    Tourist.mk "2" "Sarah Smith" (286129 # 10000, 772295 # 10000)%Q
      (JStr "alert") "5 mins ago" "+91-9876543211" 60;
    Tourist.mk "3" "Mike Johnson" (286169 # 10000, 772310 # 10000)%Q
      (JStr "emergency") "1 min ago" "+91-9876543212" 30;
    Tourist.mk "4" "Emma Wilson" (286200 # 10000, 772100 # 10000)%Q
      (JStr "safe") "3 mins ago" "+91-9876543213" 90 ].

Definition mockIncidents : list Incident.t :=
  [ Incident.mk "INC001" "Mike Johnson" "Emergency Alert"
      (286169 # 10000, 772310 # 10000)%Q "2024-09-25 14:30"
      (JStr "active") (JStr "high");
    Incident.mk "INC002" "Sarah Smith" "Geo-fence Violation"
      (286129 # 10000, 772295 # 10000)%Q "2024-09-25 14:25"
      (JStr "investigating") (JStr "medium");
    Incident.mk "INC003" "Alex Brown" "Inactivity Alert"
      (286150 # 10000, 772200 # 10000)%Q "2024-09-25 13:45"
      (JStr "resolved") (JStr "low") ].

(** ** Forms *)

Module LoginData.
Record t : Type := mk { username : string; password : string }.
Definition empty : t := mk "" "".
(** The body of POST /auth/login. *)
Definition toJSON (d : t) : JValue :=
  JObj {[ "username" := JStr (username d); "password" := JStr (password d) ]}.
End LoginData.

Module RegisterData.
Record t : Type := mk {
  username : string;
  email : string;
  password : string;
  confirmPassword : string;
  full_name : string;
  phone : string;
  department : string;
  rank : string;
  station_id : string;
  role : string
}.

(** The keys of the form object. *)
Inductive key : Type :=
| Username | Email | Password | ConfirmPassword | FullName
| Phone | Department | Rank | StationId | Role.

Definition keyName (k : key) : string :=
  match k with
  | Username => "username"
  | Email => "email"
  | Password => "password"
  | ConfirmPassword => "confirmPassword"
  | FullName => "full_name"
  | Phone => "phone"
  | Department => "department"
  | Rank => "rank"
  | StationId => "station_id"
  | Role => "role"
  end.

(** [registerData[field]]. *)
Definition get (d : t) (k : key) : string :=
  match k with
  | Username => username d
  | Email => email d
  | Password => password d
  | ConfirmPassword => confirmPassword d
  | FullName => full_name d
  | Phone => phone d
  | Department => department d
  | Rank => rank d
  | StationId => station_id d
  | Role => role d
  end.

(** [{...registerData, [k]: v}]. *)
Definition set (k : key) (v : string) (d : t) : t :=
  let pick k' := match k, k' with
                 | Username, Username | Email, Email | Password, Password
                 | ConfirmPassword, ConfirmPassword | FullName, FullName
                 | Phone, Phone | Department, Department | Rank, Rank
                 | StationId, StationId | Role, Role => v
                 | _, _ => get d k'
                 end in
  mk (pick Username) (pick Email) (pick Password) (pick ConfirmPassword)
     (pick FullName) (pick Phone) (pick Department) (pick Rank)
     (pick StationId) (pick Role).

Definition empty : t := mk "" "" "" "" "" "" "" "" "" "officer".

(** [const { confirmPassword, ...registrationData } = registerData]: the
    body of POST /auth/register. *)
Definition registrationData (d : t) : JValue :=
  JObj (list_to_map
          (map (fun k => (keyName k, JStr (get d k)))
               [Username; Email; Password; FullName; Phone; Department;
                Rank; StationId; Role])).
End RegisterData.

(** ** The component state *)

(** Authentication state. *)
Record AuthState : Type := mkAuth {
  isLoggedIn : bool;
  showRegister : bool;
  currentUser : JValue;
  authLoading : bool;
  authError : JValue
}.

(** Form state. *)
Record FormState : Type := mkForm {
  loginData : LoginData.t;
  registerData : RegisterData.t
}.

(** Data state: the three collections the dashboard is drawn from. *)
Record DataState : Type := mkData {
  tourists : list Tourist.t;
  incidents : list Incident.t;
  dashboardStats : JValue
}.

(** The requests of [apiService], as sent by [fetch]. *)
Inductive Request : Type :=
| PostRegister (body : JValue)
| PostLogin (body : JValue)
| GetCurrentUser (token : string)
| GetDashboardStats (token : string)
| GetTourists (token : string)
| GetIncidents (token : string).

(** An async function suspended at its [await].  [loadDashboardData] waits
    on [Promise.all] of three requests; the task keeps the results that have
    arrived so far. *)
Inductive Task : Type :=
| AwaitCurrentUser (token : string)
| AwaitDashboard (stats : option JValue)
                 (touristsData : option (list Tourist.t))
                 (incidentsData : option (list Incident.t))
| AwaitRegister
| AwaitLogin.

(** The component together with what it acts on: the browser's
    [localStorage], the requests sent so far (oldest first), the suspended
    async functions, and the calls of [console.error]. *)
Record World : Type := mkWorld {
  auth : AuthState;
  form : FormState;
  data : DataState;
  searchQuery : Text.t;
  localStorage : gmap string string;
  network : list Request;
  inflight : gmap nat Task;
  nextTask : nat;
  console : list (string * Exn)
}.

(** *** State setters *)

Definition updAuth (f : AuthState -> AuthState) (w : World) : World :=
  mkWorld (f (auth w)) (form w) (data w) (searchQuery w) (localStorage w)
          (network w) (inflight w) (nextTask w) (console w).

Definition updForm (f : FormState -> FormState) (w : World) : World :=
  mkWorld (auth w) (f (form w)) (data w) (searchQuery w) (localStorage w)
          (network w) (inflight w) (nextTask w) (console w).

Definition updData (f : DataState -> DataState) (w : World) : World :=
  mkWorld (auth w) (form w) (f (data w)) (searchQuery w) (localStorage w)
          (network w) (inflight w) (nextTask w) (console w).

Definition setIsLoggedIn (b : bool) : World -> World :=
  updAuth (fun a => mkAuth b (showRegister a) (currentUser a)
                           (authLoading a) (authError a)).

Definition setShowRegister (b : bool) : World -> World :=
  updAuth (fun a => mkAuth (isLoggedIn a) b (currentUser a)
                           (authLoading a) (authError a)).

Definition setCurrentUser (u : JValue) : World -> World :=
  updAuth (fun a => mkAuth (isLoggedIn a) (showRegister a) u
                           (authLoading a) (authError a)).

Definition setAuthLoading (b : bool) : World -> World :=
  updAuth (fun a => mkAuth (isLoggedIn a) (showRegister a) (currentUser a)
                           b (authError a)).

Definition setAuthError (e : JValue) : World -> World :=
  updAuth (fun a => mkAuth (isLoggedIn a) (showRegister a) (currentUser a)
                           (authLoading a) e).

Definition setLoginData (d : LoginData.t) : World -> World :=
  updForm (fun f => mkForm d (registerData f)).

Definition setRegisterData (d : RegisterData.t) : World -> World :=
  updForm (fun f => mkForm (loginData f) d).

Definition setTourists (l : list Tourist.t) : World -> World :=
  updData (fun d => mkData l (incidents d) (dashboardStats d)).

Definition setIncidents (l : list Incident.t) : World -> World :=
  updData (fun d => mkData (tourists d) l (dashboardStats d)).

Definition setDashboardStats (s : JValue) : World -> World :=
  updData (fun d => mkData (tourists d) (incidents d) s).

Definition setSearchQuery (q : Text.t) (w : World) : World :=
  mkWorld (auth w) (form w) (data w) q (localStorage w)
          (network w) (inflight w) (nextTask w) (console w).

(** *** Effects *)

(** [localStorage.setItem(key, value)] and [localStorage.removeItem(key)]. *)
Definition setItem (key value : string) (w : World) : World :=
  mkWorld (auth w) (form w) (data w) (searchQuery w)
          (<[key := value]> (localStorage w))
          (network w) (inflight w) (nextTask w) (console w).

Definition removeItem (key : string) (w : World) : World :=
  mkWorld (auth w) (form w) (data w) (searchQuery w)
          (delete key (localStorage w))
          (network w) (inflight w) (nextTask w) (console w).

(** [fetch]: the request leaves. *)
Definition fetch (r : Request) (w : World) : World :=
  mkWorld (auth w) (form w) (data w) (searchQuery w) (localStorage w)
          (network w ++ [r]) (inflight w) (nextTask w) (console w).

(** [await]: the running async function is parked under a fresh number. *)
Definition suspend (t : Task) (w : World) : World :=
  mkWorld (auth w) (form w) (data w) (searchQuery w) (localStorage w)
          (network w) (<[nextTask w := t]> (inflight w)) (S (nextTask w))
          (console w).

Definition setTask (id : nat) (t : Task) (w : World) : World :=
  mkWorld (auth w) (form w) (data w) (searchQuery w) (localStorage w)
          (network w) (<[id := t]> (inflight w)) (nextTask w) (console w).

Definition finish (id : nat) (w : World) : World :=
  mkWorld (auth w) (form w) (data w) (searchQuery w) (localStorage w)
          (network w) (delete id (inflight w)) (nextTask w) (console w).

(** [console.error(label, error)]. *)
Definition consoleError (label : string) (e : Exn) (w : World) : World :=
  mkWorld (auth w) (form w) (data w) (searchQuery w) (localStorage w)
          (network w) (inflight w) (nextTask w) (console w ++ [(label, e)]).

(** The state of a freshly created component ([useState] initial values)
    in a browser whose [localStorage] is [storage]. *)
Definition initialWorld (storage : gmap string string) : World :=
  mkWorld
    (mkAuth false false JNull false (JStr ""))
    (mkForm LoginData.empty RegisterData.empty)
    (mkData mockTourists mockIncidents
       (JObj {[ "active_tourists" := JNum 4; "active_incidents" := JNum 1;
                "safe_tourists" := JNum 3; "efirs_today" := JNum 3 ]}))
    ""
    storage [] ∅ 0%nat [].

(** ** Handlers

    An async handler is split at its [await]: the part that runs at once,
    and the continuation ([..._resume]) that runs when the awaited promise
    settles. *)

(** [loadDashboardData]: the three requests leave together, then the
    function waits for [Promise.all]. *)
Definition loadDashboardData (token : string) (w : World) : World :=
  let w := fetch (GetDashboardStats token) w in
  let w := fetch (GetTourists token) w in
  let w := fetch (GetIncidents token) w in
  suspend (AwaitDashboard None None None) w.

Definition loadDashboardData_resume
    (settled : Outcome (JValue * list Tourist.t * list Incident.t))
    (w : World) : World :=
  match settled with
  | Fulfilled (stats, touristsData, incidentsData) =>
      let w := setDashboardStats stats w in
      let w := setTourists touristsData w in
      setIncidents incidentsData w
  | Rejected error =>
      consoleError "Failed to load dashboard data:" error w
  end.

(** [verifyToken]. *)
Definition verifyToken (token : string) (w : World) : World :=
  suspend (AwaitCurrentUser token) (fetch (GetCurrentUser token) w).

Definition verifyToken_catch (error : Exn) (w : World) : World :=
  let w := consoleError "Token verification failed:" error w in
  removeItem "auth_token" w.

Definition verifyToken_resume (token : string) (settled : Outcome JValue)
    (w : World) : World :=
  match settled with
  | Fulfilled userData =>
      match getProp userData "username" with
      | Some username =>
          if truthy username then
            let w := setCurrentUser userData w in
            let w := setIsLoggedIn true w in
            loadDashboardData token w
          else removeItem "auth_token" w
      | None => verifyToken_catch TypeError w
      end
  | Rejected error => verifyToken_catch error w
  end.

(** The effect that runs on mount: check for an existing auth token. *)
Definition onMount (w : World) : World :=
  match localStorage w !! "auth_token" with
  | Some token => if truthy (JStr token) then verifyToken token w else w
  | None => w
  end.

(** [handleRegister]. *)
Definition requiredFields : list RegisterData.key :=
  [RegisterData.Username; RegisterData.Email; RegisterData.Password;
   RegisterData.FullName; RegisterData.Phone; RegisterData.Department;
   RegisterData.Rank; RegisterData.StationId].

Definition missingFields (d : RegisterData.t) : list RegisterData.key :=
  List.filter (fun field => negb (truthy (JStr (trim (RegisterData.get d field)))))
              requiredFields.

Definition handleRegister (w : World) : World :=
  let registerData := registerData (form w) in
  let w := setAuthLoading true w in
  let w := setAuthError (JStr "") w in
  if negb (String.eqb (RegisterData.password registerData)
                      (RegisterData.confirmPassword registerData)) then
    let w := setAuthError (JStr "Passwords do not match") w in
    setAuthLoading false w
  else
    let missingFields := missingFields registerData in
    if (0 <? length missingFields)%nat then
      let w := setAuthError
                 (JStr ("Please fill in all required fields: " +:+
                        join ", " (map RegisterData.keyName missingFields))) w in
      setAuthLoading false w
    else
      let w := fetch (PostRegister (RegisterData.registrationData registerData)) w in
      suspend AwaitRegister w.

Definition handleRegister_catch (error : Exn) (w : World) : World :=
  let w := consoleError "Registration error:" error w in
  setAuthError (JStr "Registration failed. Please try again.") w.

Definition handleRegister_resume (settled : Outcome JValue) (w : World) : World :=
  let w :=
    match settled with
    | Fulfilled response =>
        match getProp response "username", getProp response "detail" with
        | Some username, Some detail =>
            if truthy username then
              let w := setAuthError (JStr "") w in
              let w := setShowRegister false w in
              let w := setAuthError
                         (JStr "Registration successful! Please login with your credentials.") w in
              setRegisterData RegisterData.empty w
            else setAuthError (jsOr detail (JStr "Registration failed")) w
        | _, _ => handleRegister_catch TypeError w
        end
    | Rejected error => handleRegister_catch error w
    end in
  setAuthLoading false w.

(** [handleLogin]. *)
Definition handleLogin (w : World) : World :=
  let w := setAuthLoading true w in
  let w := setAuthError (JStr "") w in
  let w := fetch (PostLogin (LoginData.toJSON (loginData (form w)))) w in
  suspend AwaitLogin w.

Definition handleLogin_catch (error : Exn) (w : World) : World :=
  let w := consoleError "Login error:" error w in
  setAuthError (JStr "Login failed. Please check your credentials.") w.

Definition handleLogin_resume (settled : Outcome JValue) (w : World) : World :=
  let w :=
    match settled with
    | Fulfilled response =>
        match getProp response "access_token", getProp response "user",
              getProp response "detail" with
        | Some access_token, Some user, Some detail =>
            if truthy access_token then
              let w := setItem "auth_token" (toString access_token) w in
              let w := setCurrentUser user w in
              let w := setIsLoggedIn true w in
              let w := setAuthError (JStr "") w in
              loadDashboardData (toString access_token) w
            else setAuthError (jsOr detail (JStr "Invalid credentials")) w
        | _, _, _ => handleLogin_catch TypeError w
        end
    | Rejected error => handleLogin_catch error w
    end in
  setAuthLoading false w.

(** [handleLogout]. *)
Definition handleLogout (w : World) : World :=
  let w := removeItem "auth_token" w in
  let w := setIsLoggedIn false w in
  let w := setCurrentUser JNull w in
  setLoginData LoginData.empty w.

(** ** Events *)

(** The settlement of one request. *)
Inductive Response : Type :=
| CurrentUserSettled (o : Outcome JValue)
| StatsSettled (o : Outcome JValue)
| TouristsSettled (o : Outcome (list Tourist.t))
| IncidentsSettled (o : Outcome (list Incident.t))
| RegisterSettled (o : Outcome JValue)
| LoginSettled (o : Outcome JValue).

Inductive Event : Type :=
| ChangeLoginUsername (v : string)
| ChangeLoginPassword (v : string)
| ChangeRegister (k : RegisterData.key) (v : string)
| ChangeSearch (q : Text.t)
| OpenRegister
| CloseRegister
| SubmitRegister
| SubmitLogin
| ClickLogout
| Settle (id : nat) (r : Response).

(** [Promise.all] of the three dashboard requests, one more result in: it
    fulfils once all three results are there. *)
Definition promiseAll (id : nat) (stats : option JValue)
    (touristsData : option (list Tourist.t))
    (incidentsData : option (list Incident.t)) (w : World) : World :=
  match stats, touristsData, incidentsData with
  | Some s, Some t, Some i =>
      loadDashboardData_resume (Fulfilled (s, t, i)) (finish id w)
  | _, _, _ => setTask id (AwaitDashboard stats touristsData incidentsData) w
  end.

(** The function suspended as task [id] takes the settlement of a request
    it awaits.  [Promise.all] rejects with the first rejection and ignores
    whatever its other promises do afterwards; a promise settles once, so a
    second settlement of the same request does nothing. *)
Definition resume (id : nat) (t : Task) (r : Response) (w : World) : World :=
  match t, r with
  | AwaitCurrentUser token, CurrentUserSettled o =>
      verifyToken_resume token o (finish id w)
  | AwaitRegister, RegisterSettled o =>
      handleRegister_resume o (finish id w)
  | AwaitLogin, LoginSettled o =>
      handleLogin_resume o (finish id w)
  | AwaitDashboard None t i, StatsSettled (Fulfilled s) =>
      promiseAll id (Some s) t i w
  | AwaitDashboard s None i, TouristsSettled (Fulfilled t) =>
      promiseAll id s (Some t) i w
  | AwaitDashboard s t None, IncidentsSettled (Fulfilled i) =>
      promiseAll id s t (Some i) w
  | AwaitDashboard None _ _, StatsSettled (Rejected e)
  | AwaitDashboard _ None _, TouristsSettled (Rejected e)
  | AwaitDashboard _ _ None, IncidentsSettled (Rejected e) =>
      loadDashboardData_resume (Rejected e) (finish id w)
  | _, _ => w
  end.

(** A request settles; nothing happens when no suspended function waits
    for it any more. *)
Definition settle (id : nat) (r : Response) (w : World) : World :=
  match inflight w !! id with
  | Some t => resume id t r w
  | None => w
  end.

Definition step (w : World) (e : Event) : World :=
  match e with
  | ChangeLoginUsername v =>
      setLoginData (LoginData.mk v (LoginData.password (loginData (form w)))) w
  | ChangeLoginPassword v =>
      setLoginData (LoginData.mk (LoginData.username (loginData (form w))) v) w
  | ChangeRegister k v =>
      setRegisterData (RegisterData.set k v (registerData (form w))) w
  | ChangeSearch q => setSearchQuery q w
  | OpenRegister => setShowRegister true w
  | CloseRegister => setShowRegister false w
  | SubmitRegister => handleRegister w
  | SubmitLogin => handleLogin w
  | ClickLogout => handleLogout w
  | Settle id r => settle id r w
  end.

Definition run (w : World) (events : list Event) : World :=
  fold_left step events w.

(** Which screen the component renders. *)
Inductive Screen : Type := RegistrationForm | LoginScreen | Dashboard.

Definition screen (w : World) : Screen :=
  if showRegister (auth w) then RegistrationForm
  else if negb (isLoggedIn (auth w)) then LoginScreen
  else Dashboard.

(** Whether a settlement answers a request that is still awaited. *)
Definition awaited (t : Task) (r : Response) : bool :=
  match t, r with
  | AwaitCurrentUser _, CurrentUserSettled _
  | AwaitRegister, RegisterSettled _
  | AwaitLogin, LoginSettled _
  | AwaitDashboard None _ _, StatsSettled _
  | AwaitDashboard _ None _, TouristsSettled _
  | AwaitDashboard _ _ None, IncidentsSettled _ => true
  | _, _ => false
  end.

(** Whether an event can happen: its control is on the rendered screen (the
    submit buttons are disabled while [authLoading]), or its request is
    awaited. *)
Definition available (w : World) (e : Event) : bool :=
  match e with
  | ChangeLoginUsername _ | ChangeLoginPassword _ =>
      match screen w with LoginScreen => true | _ => false end
  | SubmitLogin =>
      match screen w with LoginScreen => negb (authLoading (auth w)) | _ => false end
  | ChangeRegister _ _ | CloseRegister =>
      match screen w with RegistrationForm => true | _ => false end
  | SubmitRegister =>
      match screen w with RegistrationForm => negb (authLoading (auth w)) | _ => false end
  | OpenRegister =>
      match screen w with RegistrationForm => false | _ => true end
  | ChangeSearch _ | ClickLogout =>
      match screen w with Dashboard => true | _ => false end
  | Settle id r =>
      match inflight w !! id with
      | Some t => awaited t r
      | None => false
      end
  end.

Fixpoint feasible (w : World) (events : list Event) : bool :=
  match events with
  | [] => true
  | e :: events' => available w e && feasible (step w e) events'
  end.

(** ** What the dashboard shows *)

(** [getStatusColor]: a switch on the status. *)
Definition getStatusColor (status : JValue) : string :=
  if status === "safe" then "#22c55e"
  else if status === "alert" then "#f59e0b"
  else if status === "emergency" then "#ef4444"
  else "#6b7280".

(** The severity dot of an incident: the class chosen by the conditional
    that appears in the incident list and again in the incident details
    modal. *)
Definition severityClass (severity : JValue) : string :=
  if severity === "high" then "bg-red-500"
  else if severity === "medium" then "bg-yellow-500"
  else "bg-green-500".

Definition incidentListDot (incident : Incident.t) : string :=
  "h-2 w-2 rounded-full " +:+ severityClass (Incident.severity incident).

Definition incidentDetailsDot (selectedIncident : Incident.t) : string :=
  "h-3 w-3 rounded-full " +:+ severityClass (Incident.severity selectedIncident).

(** The four stats cards.  [None]: the expression throws (the stats are
    [null] or [undefined]). *)
Definition activeTouristsCard (d : DataState) : option JValue :=
  v ← getProp (dashboardStats d) "active_tourists";
  Some (jsOr v (JNum (Z.of_nat (length (tourists d))))).

Definition activeIncidentsCard (d : DataState) : option JValue :=
  v ← getProp (dashboardStats d) "active_incidents";
  Some (jsOr v (JNum (Z.of_nat (length
    (List.filter (fun i => Incident.status i === "active") (incidents d)))))).

Definition safeTouristsCard (d : DataState) : option JValue :=
  v ← getProp (dashboardStats d) "safe_tourists";
  Some (jsOr v (JNum (Z.of_nat (length
    (List.filter (fun t => Tourist.status t === "safe") (tourists d)))))).

Definition efirsTodayCard (d : DataState) : option JValue :=
  v ← getProp (dashboardStats d) "efirs_today";
  Some (jsOr v (JNum 3)).

(** The rows of the tourist list. *)
Definition filterTourists (tourists : list Tourist.t) (searchQuery : Text.t)
    : list Tourist.t :=
  List.filter
    (fun tourist =>
       Text.includes (Text.toLowerCase (Tourist.name tourist))
                     (Text.toLowerCase searchQuery))
    tourists.

(** The component right after it is mounted in a browser whose
    [localStorage] is [storage]. *)
Definition startup (storage : gmap string string) : World :=
  onMount (initialWorld storage).

(** ** Notions used to state the properties *)

(** The colours behind the hexadecimal codes and class names (Tailwind's
    500 shades). *)
Definition green : string := "#22c55e".
Definition amber : string := "#f59e0b".
Definition red : string := "#ef4444".
Definition gray : string := "#6b7280".

(** The states of the session: authenticated once [isLoggedIn] is set,
    authenticating while a token verification or a login is awaited,
    anonymous otherwise. *)
Inductive Session : Type := Anonymous | Authenticating | Authenticated.

Definition authenticates (t : Task) : bool :=
  match t with
  | AwaitCurrentUser _ | AwaitLogin => true
  | _ => false
  end.

Definition session (w : World) : Session :=
  if isLoggedIn (auth w) then Authenticated
  else if existsb (fun p => authenticates (snd p)) (map_to_list (inflight w))
  then Authenticating
  else Anonymous.

(** A request has failed when its promise is rejected. *)
Definition rejected {A : Type} (o : Outcome A) : bool :=
  match o with
  | Rejected _ => true
  | Fulfilled _ => false
  end.

(** The three settlements of refresh cycle [id]. *)
Definition settlements (id : nat) (o1 : Outcome JValue)
    (o2 : Outcome (list Tourist.t)) (o3 : Outcome (list Incident.t))
    : list Event :=
  [Settle id (StatsSettled o1); Settle id (TouristsSettled o2);
   Settle id (IncidentsSettled o3)].

(** An event that is a settlement of cycle [id]. *)
Definition settles (id : nat) (e : Event) : bool :=
  match e with
  | Settle id' _ => Nat.eqb id id'
  | _ => false
  end.

(** The response to [getCurrentUser] has no [username] field. *)
Definition lacksUsername (userData : JValue) : Prop :=
  match userData with
  | JObj fields => fields !! "username" = None
  | _ => True
  end.

(** [getCurrentUser] rejects the token: the call fails, or the response
    lacks the [username] field. *)
Definition rejectsToken (o : Outcome JValue) : Prop :=
  match o with
  | Rejected _ => True
  | Fulfilled userData => lacksUsername userData
  end.

(** The number of entries of [statuses] equal to the string [lit]. *)
Fixpoint countStatus (lit : string) (statuses : list JValue) : nat :=
  match statuses with
  | [] => 0%nat
  | JStr s :: rest =>
      if String.eqb s lit then S (countStatus lit rest) else countStatus lit rest
  | _ :: rest => countStatus lit rest
  end.









(** A string all of whose code units are below 256. *)
Definition isLatin1 (s : Text.t) : bool :=
  forallb (fun u => match u with Text.Latin1 _ => true | _ => false end) s.

(** [out] keeps the elements of [l] that satisfy [P], and only those, in
    the order of [l]. *)
Inductive StableFilter {A : Type} (P : A -> Prop) : list A -> list A -> Prop :=
| sf_nil : StableFilter P [] []
| sf_keep x l out : P x -> StableFilter P l out -> StableFilter P (x :: l) (x :: out)
| sf_drop x l out : ~ P x -> StableFilter P l out -> StableFilter P (x :: l) out.

(** A string that is blank: white space only. *)
Fixpoint blank (s : string) : bool :=
  match s with
  | EmptyString => true
  | String c s' => isWhiteSpace c && blank s'
  end.

(** The server does not supply an aggregate: reading the field of the stats
    gives [undefined] (the field is absent) or [null]. *)
Definition notSupplied (stats : JValue) (key : string) : Prop :=
  getProp stats key = Some JUndefined \/ getProp stats key = Some JNull.

(** The three requests of a refresh cycle, the one a settlement answers,
    and whether a settlement is a failure. *)
Inductive DashboardRequest : Type :=
  StatsRequest | TouristsRequest | IncidentsRequest.

Definition answers (r : Response) : option DashboardRequest :=
  match r with
  | StatsSettled _ => Some StatsRequest
  | TouristsSettled _ => Some TouristsRequest
  | IncidentsSettled _ => Some IncidentsRequest
  | _ => None
  end.

Definition failure (r : Response) : bool :=
  match r with
  | StatsSettled o => rejected o
  | TouristsSettled o => rejected o
  | IncidentsSettled o => rejected o
  | CurrentUserSettled o | RegisterSettled o | LoginSettled o => rejected o
  end.

(** The task still waits for request [k] of its cycle. *)
Definition waitsFor (k : DashboardRequest) (t : Task) : bool :=
  match t, k with
  | AwaitDashboard None _ _, StatsRequest
  | AwaitDashboard _ None _, TouristsRequest
  | AwaitDashboard _ _ None, IncidentsRequest => true
  | _, _ => false
  end.

(** Request [k] of cycle [id] never succeeds among [events]: whenever it
    settles, it is rejected. *)
Definition neverSucceeds (id : nat) (k : DashboardRequest)
    (events : list Event) : Prop :=
  forall r, Settle id r ∈ events -> answers r = Some k -> failure r = true.

(** The numbers of the suspended functions have all been handed out
    already, so that a fresh number never names one of them. *)
Definition wellFormed (w : World) : Prop :=
  forall i t, inflight w !! i = Some t -> (i < nextTask w)%nat.

(** Cycle [id] has started and is either over or still waiting for its
    request [k]. *)
Definition unfinished (id : nat) (k : DashboardRequest) (w : World) : Prop :=
  wellFormed w /\ (id < nextTask w)%nat /\
  match inflight w !! id with
  | Some t => waitsFor k t = true
  | None => True
  end.

(** ** Scenarios *)

(** Two officers log in one after the other on the same console. *)
Definition officerA : JValue :=
  JObj {[ "username" := JStr "asha"; "full_name" := JStr "Asha Rao" ]}.
Definition officerB : JValue :=
  JObj {[ "username" := JStr "bala"; "full_name" := JStr "Bala Nair" ]}.

Definition loginResponse (token : string) (user : JValue) : JValue :=
  JObj {[ "access_token" := JStr token; "user" := user ]}.

(** What the backend answers to the first session's refresh ... *)
Definition statsA : JValue :=
  JObj {[ "active_tourists" := JNum 1; "active_incidents" := JNum 1;
          "safe_tourists" := JNum 0; "efirs_today" := JNum 1 ]}.
Definition touristsA : list Tourist.t :=
  [ Tourist.mk "7" "Ravi Kumar" (286000 # 10000, 772000 # 10000)%Q
      (JStr "emergency") "1 min ago" "+91-9000000007" 20 ].
Definition incidentsA : list Incident.t :=
  [ Incident.mk "INC100" "Ravi Kumar" "Emergency Alert"
      (286000 # 10000, 772000 # 10000)%Q "2024-09-26 09:00"
      (JStr "active") (JStr "high") ].

(** ... and to the second session's. *)
Definition statsB : JValue :=
  JObj {[ "active_tourists" := JNum 2; "active_incidents" := JNum 0;
          "safe_tourists" := JNum 2; "efirs_today" := JNum 1 ]}.
Definition touristsB : list Tourist.t :=
  [ Tourist.mk "7" "Ravi Kumar" (286010 # 10000, 772010 # 10000)%Q
      (JStr "safe") "just now" "+91-9000000007" 80;
    Tourist.mk "8" "Lena Maier" (286020 # 10000, 772020 # 10000)%Q
      (JStr "safe") "just now" "+91-9000000008" 95 ].
Definition incidentsB : list Incident.t := [].

(** Officer A signs in: the login is task 0, refresh cycle A is task 1. *)
Definition sessionA : list Event :=
  [ ChangeLoginUsername "asha"; ChangeLoginPassword "secret-a"; SubmitLogin;
    Settle 0 (LoginSettled (Fulfilled (loginResponse "token-a" officerA))) ].

(** A logs out and officer B signs in at once: the login is task 2, refresh
    cycle B is task 3. *)
Definition sessionB : list Event :=
  [ ClickLogout;
    ChangeLoginUsername "bala"; ChangeLoginPassword "secret-b"; SubmitLogin;
    Settle 2 (LoginSettled (Fulfilled (loginResponse "token-b" officerB))) ].

(** The responses of cycle B arrive and complete it ... *)
Definition cycleBCompletes : list Event :=
  settlements 3 (Fulfilled statsB) (Fulfilled touristsB) (Fulfilled incidentsB).

(** ... and only then the responses of cycle A. *)
Definition cycleAArrivesLate : list Event :=
  settlements 1 (Fulfilled statsA) (Fulfilled touristsA) (Fulfilled incidentsA).

(** A day without E-FIRs: one tourist, safe, and no incident. *)
Definition quietDay : DataState :=
  mkData
    [ Tourist.mk "1" "John Doe" (286139 # 10000, 772090 # 10000)%Q
        (JStr "safe") "2 mins ago" "+91-9876543210" 85 ]
    []
    (JObj {[ "active_tourists" := JNum 1; "active_incidents" := JNum 0;
             "safe_tourists" := JNum 1; "efirs_today" := JNum 0 ]}).

(** The registration form filled in completely, with the given password and
    confirmation. *)
Definition filledForm (password confirmPassword : string) : RegisterData.t :=
  RegisterData.mk "asha" "asha@police.gov.in" password confirmPassword
    "Asha Rao" "+91-9000000001" "Tourist Police" "Inspector" "PS-014" "officer".

(** The registration form with only the password and its confirmation
    filled in. *)
Definition passwordOnlyForm (password : string) : RegisterData.t :=
  RegisterData.mk "" "" password password "" "" "" "" "" "officer".

(** The component showing the registration form with [d] typed in. *)
Definition registering (d : RegisterData.t) : World :=
  setRegisterData d (setShowRegister true (initialWorld ∅)).


(** A tourist known by id and status only. *)
Definition touristOne : Tourist.t :=
  Tourist.mk "1" "" (0, 0)%Q (JStr "safe") "" "" 0.

(** A browser that kept a token which the backend no longer accepts. *)
Definition staleStorage : gmap string string :=
  {[ "auth_token" := "expired-token" ]}.
Definition notAuthenticated : JValue :=
  JObj {[ "detail" := JStr "Could not validate credentials" ]}.

(** The mock collections with stats that carry only the two tourist
    aggregates the backend sent. *)
Definition partialStats : DataState :=
  mkData mockTourists mockIncidents
    (JObj {[ "active_tourists" := JNum 4; "efirs_today" := JNum 2 ]}).

(** An incident whose severity the backend left out, and the same incident
    rated low. *)
Definition unratedIncident : Incident.t :=
  Incident.mk "INC004" "Emma Wilson" "Inactivity Alert"
    (286200 # 10000, 772100 # 10000)%Q "2024-09-25 15:10"
    (JStr "active") JUndefined.
Definition lowIncident : Incident.t :=
  Incident.mk "INC004" "Emma Wilson" "Inactivity Alert"
    (286200 # 10000, 772100 # 10000)%Q "2024-09-25 15:10"
    (JStr "active") (JStr "low").

(** ** Further parts of the dashboard *)

(** The Officers Online card of the reports tab. *)
Definition officersOnlineCard (d : DataState) : option JValue :=
  v ← getProp (dashboardStats d) "total_users";
  Some (jsOr v (JNum 1)).

(** ** Further notions *)

(** The response carries a truthy value under [key]: what [handleLogin]
    asks of [access_token], and [handleRegister] of [username]. *)
Definition carries (key : string) (o : Outcome JValue) : bool :=
  match o with
  | Fulfilled response =>
      match getProp response key with
      | Some v => truthy v
      | None => false
      end
  | Rejected _ => false
  end.

(** An event that is an action of the officer, not the arrival of a
    response. *)
Definition userAction (e : Event) : bool :=
  match e with
  | Settle _ _ => false
  | _ => true
  end.

(** The tasks started by the two forms. *)
Definition formTask (t : Task) : bool :=
  match t with
  | AwaitRegister | AwaitLogin => true
  | _ => false
  end.

(** At most one form request is awaited, and none while the submit buttons
    are enabled. *)
Definition oneFormRequest (w : World) : Prop :=
  (forall i t, inflight w !! i = Some t -> formTask t = true ->
     authLoading (auth w) = true) /\
  (forall i j ti tj,
     inflight w !! i = Some ti -> inflight w !! j = Some tj ->
     formTask ti = true -> formTask tj = true -> i = j).

(** The registration form is valid: the passwords agree and no required
    field is blank after trimming. *)
Definition validRegistration (d : RegisterData.t) : Prop :=
  RegisterData.password d = RegisterData.confirmPassword d /\
  forall k, k ∈ requiredFields -> trim (RegisterData.get d k) <> "".

(** ** Further scenarios *)

(** A login answered with a token, and one refused. *)
Definition loginGranted : JValue := loginResponse "token-a" officerA.
Definition loginRefused : JValue :=
  JObj {[ "detail" := JStr "Incorrect username or password" ]}.

(** The console of officer A, signed in. *)
Definition signedIn : World := run (startup ∅) sessionA.

(** A browser restarts with a stale token; the officer signs in again
    before the verification of the stale token is answered (the
    verification is task 0, the login task 1). *)
Definition loginWhileVerifying : list Event :=
  [ ChangeLoginUsername "asha"; ChangeLoginPassword "secret-a"; SubmitLogin;
    Settle 1 (LoginSettled (Fulfilled loginGranted)) ].

(** The registration of an officer that the backend accepts, and one it
    turns down. *)
Definition registrationAccepted : JValue :=
  JObj {[ "username" := JStr "asha"; "role" := JStr "officer" ]}.
Definition registrationRefused : JValue :=
  JObj {[ "detail" := JStr "Username already registered" ]}.

(** The console with a valid registration submitted (task 0). *)
Definition registrationSent : World :=
  handleRegister (registering (filledForm "abc123" "abc123")).

(** A refresh cycle of officer A in which the tourist request fails, with
    a search typed between the arrivals. *)
Definition brokenCycle : list Event :=
  [ Settle 1 (StatsSettled (Fulfilled statsA));
    ChangeSearch "ravi";
    Settle 1 (TouristsSettled (Rejected (FetchError "Failed to fetch")));
    Settle 1 (IncidentsSettled (Fulfilled incidentsA)) ].

(** Officer A's refresh after its first two answers. *)
Definition twoArrived : World :=
  run signedIn [ Settle 1 (StatsSettled (Fulfilled statsA));
                 Settle 1 (TouristsSettled (Fulfilled touristsA)) ].

(** The stats of a day on which the backend counts nothing. *)
Definition emptyDay : DataState :=
  mkData [] []
    (JObj {[ "active_tourists" := JNum 0; "active_incidents" := JNum 0;
             "safe_tourists" := JNum 0; "efirs_today" := JNum 0;
             "total_users" := JNum 0 ]}).

(** * Properties *)

(** ** JavaScript values *)

Lemma strictEqStr_true (v : JValue) (lit : string) :
  (v === lit) = true <-> v = JStr lit.
Proof.
  destruct v; simpl; try (split; discriminate).
  destruct (String.eqb_spec s lit) as [->|Hne]; split; congruence.
Qed.

Lemma strictEqStr_false (v : JValue) (lit : string) :
  v <> JStr lit -> (v === lit) = false.
Proof.
  intros Hne. destruct (v === lit) eqn:H; [| reflexivity].
  apply strictEqStr_true in H. contradiction.
Qed.

Lemma jsOr_truthy (a b : JValue) : truthy a = true -> jsOr a b = a.
Proof. unfold jsOr. by intros ->. Qed.

Lemma jsOr_falsy (a b : JValue) : truthy a = false -> jsOr a b = b.
Proof. unfold jsOr. by intros ->. Qed.

(** ** Strings *)

Section Strings.

Implicit Types s sub name q : string.

Lemma append_cons (c : ascii) (a b : string) :
  String c a +:+ b = String c (a +:+ b).
Proof. reflexivity. Qed.

Lemma prefix_iff (a s : string) :
  String.prefix a s = true <-> exists rest, s = a +:+ rest.
Proof.
  revert s. induction a as [|c a IH]; intros s.
  - split; [intros _; by exists s | intros _; by destruct s].
  - destruct s as [|d s]; simpl.
    + split; [done | intros [rest H]; discriminate H].
    + destruct (ascii_dec c d) as [->|Hne].
      * specialize (IH s). split.
        -- intros H. apply IH in H as [rest ->]. by exists rest.
        -- intros [rest H]. rewrite append_cons in H. apply IH.
           exists rest. congruence.
      * split; [done | intros [rest H]; rewrite append_cons in H; congruence].
Qed.

Lemma includes_iff s sub :
  includes s sub = true <-> exists before after, s = before +:+ sub +:+ after.
Proof.
  induction s as [|c s IH]; cbn [includes].
  - rewrite orb_false_r, prefix_iff. split.
    + intros [rest H]. by exists "", rest.
    + intros [[|x before] [after H]]; [by exists after | discriminate H].
  - rewrite orb_true_iff, prefix_iff, IH. split.
    + intros [[rest H] | (before & after & H)].
      * by exists "", rest.
      * exists (String c before), after. by rewrite append_cons, H.
    + intros ([|x before] & after & H).
      * left. by exists after.
      * right. exists before, after. rewrite append_cons in H. congruence.
Qed.

Lemma includes_empty s : includes s "" = true.
Proof. destruct s; reflexivity. Qed.

Lemma append_empty_r s : s +:+ "" = s.
Proof.
  induction s as [|c s IH]; [reflexivity | by rewrite append_cons, IH].
Qed.

Lemma append_assoc (a b c : string) : (a +:+ b) +:+ c = a +:+ b +:+ c.
Proof.
  induction a as [|x a IH]; [reflexivity | by rewrite !append_cons, IH].
Qed.

Lemma includes_append_r (a s sub : string) :
  includes s sub = true -> includes (a +:+ s) sub = true.
Proof.
  rewrite !includes_iff. intros (before & after & ->).
  exists (a +:+ before), after. by rewrite append_assoc.
Qed.

(** Every part occurs in the joined string. *)
Lemma includes_join (sep : string) (parts : list string) (x : string) :
  x ∈ parts -> includes (join sep parts) x = true.
Proof.
  unfold join. induction parts as [|p parts IH]; intros Hin; [inversion Hin |].
  apply elem_of_cons in Hin as [->|Hin].
  - apply includes_iff. destruct parts as [|p' parts]; simpl.
    + exists "", "". by rewrite append_empty_r.
    + by exists "", (sep +:+ String.concat sep (p' :: parts)).
  - destruct parts as [|p' parts]; [inversion Hin |].
    change (String.concat sep (p :: p' :: parts))
      with (p +:+ sep +:+ String.concat sep (p' :: parts)).
    apply includes_append_r, includes_append_r, IH, Hin.
Qed.





Lemma blank_trimStart s : blank (trimStart s) = blank s.
Proof.
  induction s as [|c s IH]; simpl; [reflexivity |].
  destruct (isWhiteSpace c) eqn:Hc; simpl; [exact IH | by rewrite Hc].
Qed.

Lemma trimEnd_empty_iff s : trimEnd s = "" <-> blank s = true.
Proof.
  induction s as [|c s IH]; simpl; [done |].
  destruct (trimEnd s) eqn:Ht.
  - destruct (isWhiteSpace c); simpl; [tauto |]. split; discriminate.
  - split; [discriminate |]. intros H. apply andb_true_iff in H as [_ H].
    apply IH in H. discriminate H.
Qed.

(** A string trims to the empty string exactly when it is blank. *)
Lemma trim_empty_iff s : trim s = "" <-> blank s = true.
Proof. unfold trim. by rewrite trimEnd_empty_iff, blank_trimStart. Qed.

End Strings.

(** ** Strings beyond Latin-1 *)

Section Texts.

Implicit Types s sub name q : Text.t.

(** Distinct code units have distinct numbers. *)
Lemma codePoint_inj (u v : Text.codeUnit) :
  Text.codePoint u = Text.codePoint v -> u = v.
Proof.
  assert (Hoff : forall l, (Greek.offset l <= 24)%N)
    by (intros []; simpl; lia).
  assert (Hinj : forall l l', Greek.offset l = Greek.offset l' -> l = l')
    by (intros [] [] H; try reflexivity; discriminate H).
  assert (Hsigma : forall l, Greek.offset l <> 17%N)
    by (intros []; discriminate).
  destruct u as [c|l|l|], v as [d|l'|l'|]; simpl; intros H;
    try (pose proof (N_ascii_bounded c)); try (pose proof (N_ascii_bounded d));
    try (pose proof (Hoff l)); try (pose proof (Hoff l'));
    try (pose proof (Hsigma l)); try (pose proof (Hsigma l'));
    try reflexivity; try lia.
  - f_equal. rewrite <- (ascii_N_embedding c), <- (ascii_N_embedding d).
    by rewrite H.
  - f_equal. apply Hinj. lia.
  - f_equal. apply Hinj. lia.
Qed.

(** Lower-casing in terms of the numbers: a capital of Latin-1 or Greek
    moves 32 places on, except that the capital sigma U+03A3 becomes the
    final small sigma U+03C2 where a word ends. *)
Lemma toLowerUnit_codePoint (final : bool) (u : Text.codeUnit) :
  let n := Text.codePoint u in
  Text.codePoint (Text.toLowerUnit final u) =
  (if inRange 65 90 n || (inRange 192 222 n && negb (n =? 215)) ||
      inRange 913 937 n
   then if final && (n =? 931) then 962 else n + 32
   else n)%N.
Proof.
  destruct u as [c|l|l|]; cbn [Text.codePoint Text.toLowerUnit].
  - pose proof (N_ascii_bounded c) as Hc. unfold toLowerChar.
    assert (inRange 913 937 (N_of_ascii c) = false) as ->.
    { unfold inRange. apply andb_false_iff. left. apply N.leb_gt. lia. }
    assert ((N_of_ascii c =? 931)%N = false) as -> by (apply N.eqb_neq; lia).
    rewrite orb_false_r, andb_false_r.
    destruct (inRange 65 90 (N_of_ascii c) ||
              inRange 192 222 (N_of_ascii c) && negb (N_of_ascii c =? 215)%N)
      eqn:Hcap; [| reflexivity].
    cbn [Text.codePoint]. apply N_ascii_embedding.
    unfold inRange in Hcap.
    rewrite orb_true_iff, !andb_true_iff, !N.leb_le in Hcap. lia.
  - destruct l, final; reflexivity.
  - destruct l; reflexivity.
  - reflexivity.
Qed.

Lemma startsWith_iff s sub :
  Text.startsWith s sub = true <-> exists rest, s = sub ++ rest.
Proof.
  revert s. induction sub as [|v sub IH]; intros s.
  - split; [intros _; by exists s | intros _; by destruct s].
  - destruct s as [|u s]; simpl.
    + split; [done | intros [rest H]; discriminate H].
    + rewrite andb_true_iff, bool_decide_eq_true, IH. split.
      * intros [-> [rest ->]]. by exists rest.
      * intros [rest H]. injection H as -> ->. split; [done | by exists rest].
Qed.

Lemma text_includes_iff s sub :
  Text.includes s sub = true <->
  exists before after, s = before ++ sub ++ after.
Proof.
  induction s as [|u s IH]; cbn [Text.includes].
  - rewrite orb_false_r, startsWith_iff. split.
    + intros [rest H]. by exists [], rest.
    + intros [[|x before] [after H]]; [by exists after | discriminate H].
  - rewrite orb_true_iff, startsWith_iff, IH. split.
    + intros [[rest H] | (before & after & H)].
      * by exists [], rest.
      * exists (u :: before), after. by rewrite H.
    + intros ([|x before] & after & H).
      * left. by exists after.
      * right. exists before, after. simpl in H. congruence.
Qed.


(** What includes a string includes its parts. *)
Lemma text_includes_narrow s q r :
  Text.includes s (q ++ r) = true ->
  Text.includes s q = true /\ Text.includes s r = true.
Proof.
  rewrite !text_includes_iff. intros (before & after & ->). split.
  - exists before, (r ++ after). by rewrite <- app_assoc.
  - exists (before ++ q), after. by rewrite <- !app_assoc.
Qed.

Lemma isLatin1_app (a b : Text.t) :
  isLatin1 (a ++ b) = isLatin1 a && isLatin1 b.
Proof. apply forallb_app. Qed.

(** On Latin-1 no word ends in a sigma: lower-casing works code unit by
    code unit. *)
Lemma toLowerFrom_latin1 (before : Text.t) s :
  isLatin1 s = true ->
  Text.toLowerFrom before s = map (Text.toLowerUnit false) s.
Proof.
  revert before. induction s as [|u s IH]; intros before H; [reflexivity |].
  simpl in H. apply andb_true_iff in H as [Hu Hs].
  destruct u; try discriminate Hu. simpl. by rewrite IH.
Qed.

Lemma toLowerCase_latin1 s :
  isLatin1 s = true -> Text.toLowerCase s = map (Text.toLowerUnit false) s.
Proof. apply toLowerFrom_latin1. Qed.

Lemma toLowerCase_app_latin1 (a b : Text.t) :
  isLatin1 a = true -> isLatin1 b = true ->
  Text.toLowerCase (a ++ b) = Text.toLowerCase a ++ Text.toLowerCase b.
Proof.
  intros Ha Hb. rewrite !toLowerCase_latin1, ?map_app; try done.
  by rewrite isLatin1_app, Ha, Hb.
Qed.




End Texts.

(** ** Lists *)

Section Lists.

Context {A : Type}.

Lemma filter_StableFilter (f : A -> bool) (P : A -> Prop) (l : list A) :
  (forall x, f x = true <-> P x) -> StableFilter P l (List.filter f l).
Proof.
  intros Hf. induction l as [|x l IH]; simpl; [constructor |].
  destruct (f x) eqn:Hx.
  - apply sf_keep; [by apply Hf | exact IH].
  - apply sf_drop; [| exact IH]. intros HP. apply Hf in HP. congruence.
Qed.



Lemma filter_length_countStatus (f : A -> JValue) (lit : string) (l : list A) :
  length (List.filter (fun x => f x === lit) l) = countStatus lit (f <$> l).
Proof.
  induction l as [|x l IH]; [reflexivity |].
  rewrite fmap_cons. simpl. destruct (f x); simpl; try exact IH.
  destruct (String.eqb s lit); simpl; by rewrite IH.
Qed.

(** The six orders in which three things can arrive. *)
Lemma three_permutations (a b c : A) (l : list A) :
  l ≡ₚ [a; b; c] ->
  l = [a; b; c] \/ l = [b; a; c] \/ l = [b; c; a] \/
  l = [a; c; b] \/ l = [c; a; b] \/ l = [c; b; a].
Proof.
  intros H. symmetry in H. apply permutations_Permutation in H.
  cbn in H. rewrite !elem_of_cons, elem_of_nil in H. intuition.
Qed.

End Lists.

(** ** Status and severity indicators *)

(** C6. [getStatusColor] is total: safe is green, alert amber, emergency
    red, and every other status, of whatever type, gets the default gray. *)
Theorem getStatusColor_total :
  getStatusColor (JStr "safe") = green /\
  getStatusColor (JStr "alert") = amber /\
  getStatusColor (JStr "emergency") = red /\
  forall status,
    status <> JStr "safe" -> status <> JStr "alert" ->
    status <> JStr "emergency" ->
    getStatusColor status = gray.
Proof.
  repeat split.
  intros status Hs Ha He. unfold getStatusColor.
  by rewrite !strictEqStr_false.
Qed.

Lemma getStatusColor_total_witness :
  getStatusColor (JStr "lost") = gray /\ getStatusColor JUndefined = gray.
Proof.
  split; apply getStatusColor_total; discriminate.
Defined.

(** C10. The severity dot is red for high and yellow for medium; every
    other severity (low, an unknown string, a missing field) gets the green
    dot, in the incident list and in the details modal alike, so that it
    looks exactly like a low severity. *)
Theorem severity_falls_through_to_green :
  severityClass (JStr "high") = "bg-red-500" /\
  severityClass (JStr "medium") = "bg-yellow-500" /\
  severityClass (JStr "low") = "bg-green-500" /\
  severityClass JUndefined = "bg-green-500" /\
  forall incident low,
    Incident.severity incident <> JStr "high" ->
    Incident.severity incident <> JStr "medium" ->
    Incident.severity low = JStr "low" ->
    severityClass (Incident.severity incident) = "bg-green-500" /\
    incidentListDot incident = incidentListDot low /\
    incidentDetailsDot incident = incidentDetailsDot low.
Proof.
  do 4 (split; [reflexivity |]).
  intros incident low Hhigh Hmedium Hlow.
  assert (Hgreen : severityClass (Incident.severity incident) = "bg-green-500").
  { unfold severityClass. by rewrite !strictEqStr_false. }
  unfold incidentListDot, incidentDetailsDot. rewrite Hgreen, Hlow.
  repeat split.
Qed.

Lemma severity_falls_through_to_green_witness :
  incidentListDot unratedIncident = incidentListDot lowIncident /\
  incidentDetailsDot unratedIncident = incidentDetailsDot lowIncident.
Proof.
  destruct severity_falls_through_to_green as (_ & _ & _ & _ & H).
  destruct (H unratedIncident lowIncident) as (_ & Hlist & Hmodal);
    [discriminate | discriminate | reflexivity |].
  split; [exact Hlist | exact Hmodal].
Defined.

(** ** Stats cards *)

(** A card shows the server's aggregate whenever that value is truthy. *)
Lemma card_shows_truthy_server_value (d : DataState) (v : JValue) :
  truthy v = true ->
  (getProp (dashboardStats d) "active_tourists" = Some v ->
   activeTouristsCard d = Some v) /\
  (getProp (dashboardStats d) "active_incidents" = Some v ->
   activeIncidentsCard d = Some v) /\
  (getProp (dashboardStats d) "safe_tourists" = Some v ->
   safeTouristsCard d = Some v) /\
  (getProp (dashboardStats d) "efirs_today" = Some v ->
   efirsTodayCard d = Some v).
Proof.
  intros Hv.
  unfold activeTouristsCard, activeIncidentsCard, safeTouristsCard, efirsTodayCard.
  repeat split; intros ->; simpl; by rewrite jsOr_truthy.
Qed.

(** A server-supplied 0 is falsy: the card shows the local substitute. *)
Lemma card_replaces_zero (d : DataState) :
  (getProp (dashboardStats d) "active_tourists" = Some (JNum 0) ->
   activeTouristsCard d = Some (JNum (Z.of_nat (length (tourists d))))) /\
  (getProp (dashboardStats d) "active_incidents" = Some (JNum 0) ->
   activeIncidentsCard d =
   Some (JNum (Z.of_nat (countStatus "active" (Incident.status <$> incidents d))))) /\
  (getProp (dashboardStats d) "safe_tourists" = Some (JNum 0) ->
   safeTouristsCard d =
   Some (JNum (Z.of_nat (countStatus "safe" (Tourist.status <$> tourists d))))) /\
  (getProp (dashboardStats d) "efirs_today" = Some (JNum 0) ->
   efirsTodayCard d = Some (JNum 3)).
Proof.
  unfold activeTouristsCard, activeIncidentsCard, safeTouristsCard, efirsTodayCard.
  repeat split; intros ->; simpl; by rewrite ?filter_length_countStatus.
Qed.

(** The state the component starts with carries aggregates of its own: the
    safe-tourists card shows the initial 3, although two of the four mock
    tourists are safe. *)
Remark initial_safe_tourists (storage : gmap string string) :
  safeTouristsCard (data (initialWorld storage)) = Some (JNum 3) /\
  countStatus "safe" (Tourist.status <$> tourists (data (initialWorld storage))) = 2%nat.
Proof. split; reflexivity. Qed.

(** C3. On a day for which the server reports 0 E-FIRs the card shows 3:
    [||] takes the server's 0 for a missing value. *)
Theorem zero_efirs_shown_as_three :
  getProp (dashboardStats quietDay) "efirs_today" = Some (JNum 0) /\
  efirsTodayCard quietDay = Some (JNum 3).
Proof. split; reflexivity. Qed.

(** C4. When the server does not supply an aggregate, the card shows the
    count derived from the collection: the incidents whose status is
    active, the tourists whose status is safe; for tourists with statuses
    safe, alert, emergency, safe that is 2. *)
Theorem derived_counts_when_not_supplied (d : DataState) :
  (notSupplied (dashboardStats d) "active_incidents" ->
   activeIncidentsCard d =
   Some (JNum (Z.of_nat (countStatus "active" (Incident.status <$> incidents d))))) /\
  (notSupplied (dashboardStats d) "safe_tourists" ->
   safeTouristsCard d =
   Some (JNum (Z.of_nat (countStatus "safe" (Tourist.status <$> tourists d))))) /\
  (notSupplied (dashboardStats d) "safe_tourists" ->
   Tourist.status <$> tourists d =
     [JStr "safe"; JStr "alert"; JStr "emergency"; JStr "safe"] ->
   safeTouristsCard d = Some (JNum 2)).
Proof.
  assert (Hsafe : notSupplied (dashboardStats d) "safe_tourists" ->
    safeTouristsCard d =
    Some (JNum (Z.of_nat (countStatus "safe" (Tourist.status <$> tourists d))))).
  { unfold safeTouristsCard.
    intros [H|H]; rewrite H; simpl; by rewrite filter_length_countStatus. }
  split; [| split].
  - unfold activeIncidentsCard.
    intros [H|H]; rewrite H; simpl; by rewrite filter_length_countStatus.
  - exact Hsafe.
  - intros H Hst. rewrite (Hsafe H), Hst. reflexivity.
Qed.

Lemma derived_counts_when_not_supplied_witness :
  activeIncidentsCard partialStats = Some (JNum 1) /\
  safeTouristsCard partialStats = Some (JNum 2).
Proof.
  destruct (derived_counts_when_not_supplied partialStats) as (Hactive & _ & Hsafe).
  split.
  - rewrite Hactive; [reflexivity | left; reflexivity].
  - apply Hsafe; [left; reflexivity | reflexivity].
Defined.

(** ** Tourist list *)




(** ** Registration *)

Section Registration.

Variable w : World.
Let d := registerData (form w).

(** The state the handler starts from: loading, no error. *)
Let started : World := setAuthError (JStr "") (setAuthLoading true w).

Lemma handleRegister_mismatch :
  RegisterData.password d <> RegisterData.confirmPassword d ->
  handleRegister w =
  setAuthLoading false (setAuthError (JStr "Passwords do not match") started).
Proof.
  intros Hne. unfold handleRegister. cbv zeta. fold d.
  destruct (String.eqb_spec (RegisterData.password d)
                            (RegisterData.confirmPassword d));
    [contradiction | reflexivity].
Qed.

Lemma handleRegister_missing :
  RegisterData.password d = RegisterData.confirmPassword d ->
  missingFields d <> [] ->
  handleRegister w =
  setAuthLoading false
    (setAuthError
       (JStr ("Please fill in all required fields: " +:+
              join ", " (RegisterData.keyName <$> missingFields d)))
       started).
Proof.
  intros Heq Hmiss. unfold handleRegister. cbv zeta. fold d.
  rewrite Heq, String.eqb_refl.
  destruct (missingFields d); [contradiction | reflexivity].
Qed.

Lemma missingFields_spec (k : RegisterData.key) :
  k ∈ missingFields d <-> k ∈ requiredFields /\ trim (RegisterData.get d k) = "".
Proof.
  unfold missingFields. rewrite list_elem_of_In, filter_In, <- list_elem_of_In.
  simpl. destruct (String.eqb_spec (trim (RegisterData.get d k)) ""); simpl;
    intuition congruence.
Qed.

End Registration.

(** C8. When the password and its confirmation differ, registration fails
    with a validation error at once: no request is sent and no call is
    left waiting. *)
Theorem register_rejects_mismatched_passwords (w : World) :
  RegisterData.password (registerData (form w)) <>
  RegisterData.confirmPassword (registerData (form w)) ->
  authError (auth (handleRegister w)) = JStr "Passwords do not match" /\
  authLoading (auth (handleRegister w)) = false /\
  network (handleRegister w) = network w /\
  inflight (handleRegister w) = inflight w.
Proof.
  intros Hne. rewrite (handleRegister_mismatch w Hne). repeat split.
Qed.

Lemma register_rejects_mismatched_passwords_witness :
  authError (auth (handleRegister (registering (filledForm "abc123" "abc124")))) =
    JStr "Passwords do not match" /\
  network (handleRegister (registering (filledForm "abc123" "abc124"))) = [].
Proof.
  destruct (register_rejects_mismatched_passwords
              (registering (filledForm "abc123" "abc124")))
    as (He & _ & Hn & _); [discriminate |].
  split; [exact He | exact Hn].
Defined.

(** C9. When the passwords match but some required field is blank after
    trimming, registration fails without sending a request, and the error
    names exactly the blank required fields, in the order of the form: the
    name of every such field occurs in the message. *)
Theorem register_lists_every_missing_field (w : World) :
  let d := registerData (form w) in
  RegisterData.password d = RegisterData.confirmPassword d ->
  (exists k, k ∈ requiredFields /\ trim (RegisterData.get d k) = "") ->
  network (handleRegister w) = network w /\
  inflight (handleRegister w) = inflight w /\
  authLoading (auth (handleRegister w)) = false /\
  exists listed,
    authError (auth (handleRegister w)) =
      JStr ("Please fill in all required fields: " +:+
            join ", " (RegisterData.keyName <$> listed)) /\
    StableFilter (fun k => trim (RegisterData.get d k) = "") requiredFields listed /\
    forall k, k ∈ requiredFields -> trim (RegisterData.get d k) = "" ->
      exists message,
        authError (auth (handleRegister w)) = JStr message /\
        includes message (RegisterData.keyName k) = true.
Proof.
  intros d Hpw (k & Hk & Hblank).
  assert (Hmiss : missingFields d <> []).
  { intros Hnil.
    assert (Hin : k ∈ missingFields d) by (by apply missingFields_spec).
    rewrite Hnil in Hin. inversion Hin. }
  rewrite (handleRegister_missing w Hpw Hmiss). fold d.
  do 3 (split; [reflexivity |]).
  exists (missingFields d). split; [reflexivity |]. split.
  - apply filter_StableFilter. intros x. simpl.
    destruct (String.eqb_spec (trim (RegisterData.get d x)) "");
      simpl; intuition congruence.
  - intros k' Hk' Hblank'. eexists. split; [reflexivity |].
    apply includes_append_r, includes_join, list_elem_of_fmap_2.
    by apply missingFields_spec.
Qed.

Lemma register_lists_every_missing_field_witness :
  authError (auth (handleRegister (registering (passwordOnlyForm "abc123")))) =
    JStr "Please fill in all required fields: username, email, full_name, phone, department, rank, station_id" /\
  network (handleRegister (registering (passwordOnlyForm "abc123"))) = [].
Proof.
  destruct (register_lists_every_missing_field
              (registering (passwordOnlyForm "abc123")))
    as (Hn & _ & _ & _).
  - reflexivity.
  - exists RegisterData.Username. split; [apply list_elem_of_here | reflexivity].
  - split; [reflexivity | exact Hn].
Defined.

(** ** Suspended functions *)

Create HintDb inflight discriminated.

Lemma settle_Some (id : nat) (r : Response) (w : World) (t : Task) :
  inflight w !! id = Some t -> settle id r w = resume id t r w.
Proof. unfold settle. by intros ->. Qed.

Lemma settle_None (id : nat) (r : Response) (w : World) :
  inflight w !! id = None -> settle id r w = w.
Proof. unfold settle. by intros ->. Qed.

Lemma lookup_setTask (id : nat) (t : Task) (w : World) :
  inflight (setTask id t w) !! id = Some t.
Proof. apply lookup_insert_eq. Qed.

Lemma lookup_suspend (t : Task) (w : World) :
  inflight (suspend t w) !! nextTask w = Some t.
Proof. apply lookup_insert_eq. Qed.

Lemma lookup_refresh_over (id : nat)
    (o : Outcome (JValue * list Tourist.t * list Incident.t)) (w : World) :
  inflight (loadDashboardData_resume o (finish id w)) !! id = None.
Proof. destruct o as [[[s t] i]|e]; apply lookup_delete_eq. Qed.

#[local] Hint Resolve lookup_setTask lookup_suspend lookup_refresh_over : inflight.

(** Evaluate the innermost settlement whose task is known. *)
Ltac settle_inner :=
  match goal with
  | |- context [settle ?id ?r ?w] =>
      first
        [ rewrite (settle_None id r w) by auto with inflight
        | erewrite (settle_Some id r w) by
            first [eassumption | auto with inflight] ];
      cbn [resume promiseAll]
  end.

Ltac settle_all := unfold run; cbn [fold_left step]; repeat settle_inner.

Ltac unfold_handlers :=
  unfold step, settle, resume, promiseAll, handleRegister, handleLogin,
    handleLogout, handleRegister_resume, handleRegister_catch,
    handleLogin_resume, handleLogin_catch, verifyToken_resume,
    verifyToken_catch, loadDashboardData_resume, loadDashboardData,
    wellFormed in *.

(** Every number in the map built from [inflight w] is below the bound. *)
Ltac solve_bound Hw :=
  let i := fresh "i" in
  let t := fresh "t" in
  let H := fresh "H" in
  intros i t H; cbn in H |- *;
  repeat first
    [ apply lookup_insert_Some in H as [[<- _]|[_ H]]
    | apply lookup_delete_Some in H as [_ H] ];
  try lia; apply Hw in H; lia.

Lemma wellFormed_initial (storage : gmap string string) :
  wellFormed (initialWorld storage).
Proof. intros i t H. cbn in H. by rewrite lookup_empty in H. Qed.

Lemma wellFormed_suspend (t : Task) (w : World) :
  wellFormed w -> wellFormed (suspend t w).
Proof. intros Hw. unfold wellFormed. solve_bound Hw. Qed.

Lemma wellFormed_startup (storage : gmap string string) :
  wellFormed (startup storage).
Proof.
  unfold startup, onMount, verifyToken.
  repeat case_match; try apply wellFormed_initial.
  apply wellFormed_suspend. exact (wellFormed_initial storage).
Qed.

Lemma wellFormed_step (w : World) (e : Event) :
  wellFormed w -> wellFormed (step w e).
Proof.
  intros Hw.
  destruct e as [v|v|k v|q| | | | | |id' r].
  10: { unfold_handlers.
        destruct (inflight w !! id') as [t'|] eqn:Hid'; [| exact Hw].
        assert (Hlt' : (id' < nextTask w)%nat) by eauto.
        repeat case_match; cbn; solve_bound Hw. }
  all: unfold_handlers; repeat case_match; cbn; solve_bound Hw.
Qed.

Lemma wellFormed_run (events : list Event) (w : World) :
  wellFormed w -> wellFormed (run w events).
Proof.
  revert w. induction events as [|e events IH]; intros w Hw; [exact Hw |].
  apply IH, wellFormed_step, Hw.
Qed.

Lemma run_app (w : World) (es1 es2 : list Event) :
  run w (es1 ++ es2) = run (run w es1) es2.
Proof. apply fold_left_app. Qed.

Section OtherTask.

Variable id : nat.

(** An event that is not a settlement of task [id] leaves that task as it
    is: nothing cancels a suspended function, neither logout nor a new
    login nor the completion of another refresh; and nothing revives a
    finished one. *)
Lemma step_frame (w : World) (e : Event) :
  settles id e = false ->
  wellFormed w ->
  (id < nextTask w)%nat ->
  (id < nextTask (step w e))%nat /\
  inflight (step w e) !! id = inflight w !! id.
Proof.
  intros He Hw Hlt.
  destruct e as [v|v|k v|q| | | | | |id' r]; simpl in He.
  10: { apply Nat.eqb_neq in He.
        unfold_handlers.
        destruct (inflight w !! id') as [t'|] eqn:Hid'; [| by split].
        assert (Hlt' : (id' < nextTask w)%nat) by eauto.
        repeat case_match; cbn; (split; [lia |]);
          by rewrite ?lookup_insert_ne, ?lookup_delete_ne by lia. }
  all: unfold_handlers; repeat case_match; cbn; (split; [lia |]);
    by rewrite ?lookup_insert_ne by lia.
Qed.

Lemma run_frame (events : list Event) (w : World) :
  (forall e, e ∈ events -> settles id e = false) ->
  wellFormed w ->
  (id < nextTask w)%nat ->
  inflight (run w events) !! id = inflight w !! id.
Proof.
  revert w. induction events as [|e events IH]; intros w Hev Hw Hlt;
    [reflexivity |].
  destruct (step_frame w e) as [Hlt' Hsame]; auto.
  { apply Hev, list_elem_of_here. }
  cbn [run fold_left]. rewrite <- Hsame. apply IH.
  - intros e' He'. apply Hev. by apply list_elem_of_further.
  - by apply wellFormed_step.
  - exact Hlt'.
Qed.

End OtherTask.

(** The three collections change in one way only: the settlement that
    completes a refresh cycle replaces all three with the results of that
    cycle, those kept in its task and the one just arrived. *)
Lemma data_replaced_wholesale (w : World) (e : Event) :
  data (step w e) = data w \/
  exists id r s t i s' t' i',
    e = Settle id r /\
    inflight w !! id = Some (AwaitDashboard s t i) /\
    data (step w e) = mkData t' i' s' /\
    (s = Some s' \/ r = StatsSettled (Fulfilled s')) /\
    (t = Some t' \/ r = TouristsSettled (Fulfilled t')) /\
    (i = Some i' \/ r = IncidentsSettled (Fulfilled i')).
Proof.
  destruct e as [v|v|k v|q| | | | | |id r];
    try (left; unfold_handlers; repeat case_match; reflexivity).
  cbn [step]. unfold settle.
  destruct (inflight w !! id) as [task|] eqn:Hid; [| by left].
  destruct task as [token|s t i| |]; destruct r as [o|o|o|o|o|o];
    try (left; unfold_handlers; repeat case_match; reflexivity).
  all: destruct o as [v|err]; destruct s as [s0|], t as [t0|], i as [i0|];
    try (left; reflexivity).
  all: right; do 8 eexists; (split; [reflexivity |]); (split; [exact Hid |]);
    (split; [reflexivity |]); auto.
Qed.

(** ** Session start *)

(** What the continuation of [verifyToken] does when the token is
    rejected: it removes the token and nothing else. *)
Lemma verifyToken_resume_rejected (token : string) (o : Outcome JValue)
    (w : World) :
  rejectsToken o ->
  auth (verifyToken_resume token o w) = auth w /\
  data (verifyToken_resume token o w) = data w /\
  localStorage (verifyToken_resume token o w) = delete "auth_token" (localStorage w) /\
  network (verifyToken_resume token o w) = network w /\
  inflight (verifyToken_resume token o w) = inflight w.
Proof.
  intros Hrej. unfold verifyToken_resume, verifyToken_catch.
  destruct o as [userData|e]; [| repeat split].
  destruct userData; simpl in Hrej; cbn [getProp]; rewrite ?Hrej;
    repeat split.
Qed.

(** C5. At startup with a persisted token that [getCurrentUser] rejects
    (the call fails, or the response has no username), the session goes
    from authenticating back to anonymous, the token is removed from the
    storage, and the only request ever sent is the verification itself: no
    dashboard fetch. *)
Theorem rejected_token_ends_anonymous (storage : gmap string string)
    (token : string) (o : Outcome JValue) :
  storage !! "auth_token" = Some token ->
  token <> "" ->
  rejectsToken o ->
  let verifying := startup storage in
  let w := run verifying [Settle 0 (CurrentUserSettled o)] in
  session verifying = Authenticating /\
  network verifying = [GetCurrentUser token] /\
  session w = Anonymous /\
  currentUser (auth w) = JNull /\
  localStorage w = delete "auth_token" storage /\
  network w = [GetCurrentUser token] /\
  inflight w = ∅.
Proof.
  intros Htoken Hne Hrej verifying w.
  assert (Hv : verifying =
               suspend (AwaitCurrentUser token)
                 (fetch (GetCurrentUser token) (initialWorld storage))).
  { unfold verifying, startup, onMount. cbn [localStorage initialWorld].
    rewrite Htoken. simpl.
    destruct (String.eqb_spec token ""); [contradiction | reflexivity]. }
  assert (Hw : w = verifyToken_resume token o (finish 0 verifying)).
  { unfold w. settle_all. rewrite Hv.
    erewrite settle_Some by apply (lookup_suspend _ (fetch _ (initialWorld storage))).
    reflexivity. }
  destruct (verifyToken_resume_rejected token o (finish 0 verifying) Hrej)
    as (Hauth & _ & Hstorage & Hnetwork & Hinflight).
  rewrite <- Hw in Hauth, Hstorage, Hnetwork, Hinflight.
  assert (Hempty : inflight w = ∅).
  { rewrite Hinflight, Hv. cbn. by rewrite delete_insert_eq, delete_empty. }
  split; [| split; [| split; [| split; [| split; [| split]]]]].
  - rewrite Hv. unfold session. cbn.
    by rewrite insert_empty, map_to_list_singleton.
  - by rewrite Hv.
  - unfold session. rewrite Hempty, map_to_list_empty, Hauth, Hv. reflexivity.
  - rewrite Hauth, Hv. reflexivity.
  - rewrite Hstorage, Hv. reflexivity.
  - rewrite Hnetwork, Hv. reflexivity.
  - exact Hempty.
Qed.

Lemma rejected_token_ends_anonymous_witness :
  session (run (startup staleStorage)
               [Settle 0 (CurrentUserSettled (Fulfilled notAuthenticated))]) =
    Anonymous /\
  localStorage (run (startup staleStorage)
                    [Settle 0 (CurrentUserSettled (Fulfilled notAuthenticated))])
    !! "auth_token" = None /\
  network (run (startup staleStorage)
               [Settle 0 (CurrentUserSettled (Fulfilled notAuthenticated))]) =
    [GetCurrentUser "expired-token"].
Proof.
  destruct (rejected_token_ends_anonymous staleStorage "expired-token"
              (Fulfilled notAuthenticated))
    as (_ & _ & Hs & _ & Hl & Hn & _);
    [reflexivity | discriminate | reflexivity |].
  split; [exact Hs |]. split; [| exact Hn].
  rewrite Hl. apply lookup_delete_eq.
Defined.

(** ** Refresh cycles *)

(** C1. A refresh cycle in which one of the three requests fails leaves the
    three collections exactly as they were before it, in whatever order the
    three settlements arrive, and the cycle is over. *)
Theorem failed_refresh_keeps_snapshot (w : World) (id : nat)
    (o1 : Outcome JValue) (o2 : Outcome (list Tourist.t))
    (o3 : Outcome (list Incident.t)) (arrivals : list Event) :
  inflight w !! id = Some (AwaitDashboard None None None) ->
  rejected o1 || rejected o2 || rejected o3 = true ->
  arrivals ≡ₚ settlements id o1 o2 o3 ->
  data (run w arrivals) = data w /\
  inflight (run w arrivals) !! id = None.
Proof.
  intros Hcycle Hfail Harr.
  apply three_permutations in Harr.
  destruct o1, o2, o3; try discriminate Hfail;
    destruct Harr as [->|[->|[->|[->|[->| ->]]]]]; settle_all;
    (split; [reflexivity | auto with inflight]).
Qed.

Lemma failed_refresh_keeps_snapshot_witness :
  data (run (run (startup ∅) sessionA)
            (settlements 1 (Rejected (FetchError "Failed to fetch"))
               (Fulfilled [touristOne]) (Fulfilled []))) =
  data (run (startup ∅) sessionA).
Proof.
  apply (failed_refresh_keeps_snapshot (run (startup ∅) sessionA) 1
           (Rejected (FetchError "Failed to fetch"))
           (Fulfilled [touristOne]) (Fulfilled [])); reflexivity.
Defined.

(** The same with other events falling between the arrivals: as long as
    one request of the cycle never succeeds, no settlement of the cycle
    changes the three collections. *)
Lemma unfinished_step (id : nat) (k : DashboardRequest) (w : World) (e : Event) :
  unfinished id k w ->
  (forall r, e = Settle id r -> answers r = Some k -> failure r = true) ->
  unfinished id k (step w e) /\
  (settles id e = true -> data (step w e) = data w).
Proof.
  intros (Hw & Hlt & Hwait) He.
  destruct (settles id e) eqn:Hs.
  - destruct e as [v|v|k' v|q| | | | | |id' r]; try discriminate Hs.
    simpl in Hs. apply Nat.eqb_eq in Hs as <-.
    specialize (He r eq_refl).
    pose proof (wellFormed_step w (Settle id r) Hw) as Hw'.
    cbn [step] in *. unfold settle in *.
    destruct (inflight w !! id) as [t|] eqn:Hid;
      [| repeat split; auto; by rewrite Hid].
    unfold unfinished.
    destruct t as [token|s t i| |]; try discriminate Hwait.
    destruct k, r as [o|o|o|o|o|o]; try destruct o as [v|err];
      destruct s as [s0|], t as [t0|], i as [i0|];
      try discriminate Hwait; try (discriminate (He eq_refl));
      cbn in *; rewrite ?lookup_insert_eq, ?lookup_delete_eq, ?Hid;
      repeat split; auto.
  - destruct (step_frame id w e Hs Hw Hlt) as (Hlt' & Hsame).
    split; [| discriminate].
    split; [by apply wellFormed_step |]. split; [exact Hlt' |].
    by rewrite Hsame.
Qed.

Lemma unfinished_run (id : nat) (k : DashboardRequest) (events : list Event)
    (w : World) :
  unfinished id k w ->
  neverSucceeds id k events ->
  unfinished id k (run w events).
Proof.
  revert w. induction events as [|e events IH]; intros w Hu Hnever; [exact Hu |].
  apply IH.
  - apply unfinished_step; [exact Hu |].
    intros r ->. apply Hnever, list_elem_of_here.
  - intros r Hin. apply Hnever. by apply list_elem_of_further.
Qed.

Lemma failed_cycle_never_writes (id : nat) (k : DashboardRequest)
    (w : World) (before after : list Event) (e : Event) :
  wellFormed w ->
  inflight w !! id = Some (AwaitDashboard None None None) ->
  neverSucceeds id k (before ++ e :: after) ->
  settles id e = true ->
  data (step (run w before) e) = data (run w before).
Proof.
  intros Hw Hid Hnever He.
  assert (Hu : unfinished id k w).
  { split; [exact Hw |]. split; [eauto |]. rewrite Hid. by destruct k. }
  apply (unfinished_step id k); [| | exact He].
  - apply unfinished_run; [exact Hu |].
    intros r Hin. apply Hnever, elem_of_app. by left.
  - intros r ->. apply Hnever, elem_of_app. right. apply list_elem_of_here.
Qed.

(** C2, as stated, fails.  Officer A signs in, logs out at once, officer B
    signs in and B's refresh completes; when A's three responses arrive
    afterwards they replace what B's refresh had stored, under B's
    session. *)
Lemma stale_responses_overwrite_newer_session :
  let completed := run (startup ∅) (sessionA ++ sessionB ++ cycleBCompletes) in
  let afterwards := run completed cycleAArrivesLate in
  feasible (startup ∅)
    (sessionA ++ sessionB ++ cycleBCompletes ++ cycleAArrivesLate) = true /\
  currentUser (auth completed) = officerB /\
  data completed = mkData touristsB incidentsB statsB /\
  currentUser (auth afterwards) = officerB /\
  data afterwards = mkData touristsA incidentsA statsA /\
  data afterwards <> data completed.
Proof.
  cbv zeta. repeat split; try (vm_compute; reflexivity).
  intros H. apply (f_equal (fun d => length (tourists d))) in H.
  vm_compute in H. discriminate H.
Qed.

(** C2, amended.  A refresh cycle that is under way stays under way
    whatever happens next (logout, another login, another cycle that
    completes), and when its three responses have arrived, in any order,
    the three collections are exactly its results. *)
Theorem late_cycle_overwrites (storage : gmap string string)
    (history between arrivals : list Event) (idA : nat)
    (stats : JValue) (touristsData : list Tourist.t)
    (incidentsData : list Incident.t) :
  inflight (run (startup storage) history) !! idA =
    Some (AwaitDashboard None None None) ->
  (forall e, e ∈ between -> settles idA e = false) ->
  arrivals ≡ₚ settlements idA (Fulfilled stats) (Fulfilled touristsData)
                          (Fulfilled incidentsData) ->
  data (run (run (startup storage) history) (between ++ arrivals)) =
  mkData touristsData incidentsData stats.
Proof.
  intros Hcycle Hbetween Harr. rewrite run_app.
  assert (Hlate : inflight (run (run (startup storage) history) between) !! idA =
                  Some (AwaitDashboard None None None)).
  { pose proof (wellFormed_run history _ (wellFormed_startup storage)) as Hw.
    rewrite run_frame; eauto. }
  generalize dependent (run (run (startup storage) history) between).
  intros w Hlate. apply three_permutations in Harr.
  destruct Harr as [->|[->|[->|[->|[->| ->]]]]]; settle_all; reflexivity.
Qed.

Lemma late_cycle_overwrites_witness :
  data (run (run (startup ∅) sessionA)
            ((sessionB ++ cycleBCompletes) ++ cycleAArrivesLate)) =
  mkData touristsA incidentsA statsA.
Proof.
  apply (late_cycle_overwrites ∅ sessionA (sessionB ++ cycleBCompletes)
           cycleAArrivesLate 1%nat statsA touristsA incidentsA).
  - reflexivity.
  - intros e He. unfold sessionB, cycleBCompletes, settlements in He. cbn in He.
    rewrite !elem_of_cons, elem_of_nil in He.
    repeat destruct He as [->|He]; try reflexivity. contradiction.
  - reflexivity.
Defined.

(** * Further properties *)

(** Evaluate setters and effects applied to a world. *)
Ltac world_eval :=
  cbv beta iota zeta delta
    [handleLogout setLoginData setCurrentUser setIsLoggedIn setShowRegister
     setAuthLoading setAuthError setRegisterData setTourists setIncidents
     setDashboardStats setSearchQuery setItem removeItem fetch suspend setTask
     finish consoleError updForm updAuth updData
     auth form data searchQuery localStorage network inflight nextTask console
     isLoggedIn showRegister currentUser authLoading authError
     loginData registerData tourists incidents dashboardStats].

(** ** Login *)

Lemma truthy_jsOr (a b : JValue) : truthy b = true -> truthy (jsOr a b) = true.
Proof. intros Hb. unfold jsOr. by destruct (truthy a) eqn:Ha. Qed.

Section Login.

Variable w : World.

Lemma handleLogin_settle (o : Outcome JValue) :
  run w [SubmitLogin; Settle (nextTask w) (LoginSettled o)] =
  handleLogin_resume o (finish (nextTask w) (handleLogin w)).
Proof.
  unfold run. cbn [fold_left step].
  erewrite settle_Some by apply (lookup_suspend AwaitLogin).
  reflexivity.
Qed.

Lemma handleLogin_resume_success (fields : gmap string JValue)
    (access_token : JValue) (x : World) :
  fields !! "access_token" = Some access_token ->
  truthy access_token = true ->
  handleLogin_resume (Fulfilled (JObj fields)) x =
  setAuthLoading false
    (loadDashboardData (toString access_token)
       (setAuthError (JStr "")
          (setIsLoggedIn true
             (setCurrentUser (default JUndefined (fields !! "user"))
                (setItem "auth_token" (toString access_token) x))))).
Proof.
  intros Htok Htruthy. unfold handleLogin_resume. cbn [getProp].
  rewrite Htok. cbn [default id]. by rewrite Htruthy.
Qed.

(** X1. A login answered with an [access_token] that is a non-empty
    string stores the token, authenticates with the user of the response,
    clears the error, and sends the three dashboard requests with that
    token, in one step. *)
Theorem login_success (fields : gmap string JValue) (token : string) :
  fields !! "access_token" = Some (JStr token) ->
  token <> "" ->
  let w' := run w [SubmitLogin;
                   Settle (nextTask w) (LoginSettled (Fulfilled (JObj fields)))] in
  localStorage w' = <["auth_token" := token]> (localStorage w) /\
  isLoggedIn (auth w') = true /\
  currentUser (auth w') = default JUndefined (fields !! "user") /\
  authError (auth w') = JStr "" /\
  authLoading (auth w') = false /\
  network w' = network w ++
    [PostLogin (LoginData.toJSON (loginData (form w)));
     GetDashboardStats token; GetTourists token; GetIncidents token] /\
  inflight w' !! S (nextTask w) = Some (AwaitDashboard None None None) /\
  inflight w' !! nextTask w = None /\
  data w' = data w.
Proof.
  intros Htok Hne w'. unfold w'.
  assert (Htruthy : truthy (JStr token) = true).
  { simpl. by destruct (String.eqb_spec token ""). }
  rewrite handleLogin_settle, (handleLogin_resume_success _ _ _ Htok Htruthy).
  cbn. repeat split.
  - by rewrite <- !app_assoc.
  - apply lookup_insert_eq.
  - rewrite lookup_insert_ne by lia. by rewrite lookup_delete_eq.
Qed.

(** X2. A login that brings no truthy [access_token] leaves the session as
    it was: nothing is stored, nobody is authenticated, no dashboard
    request leaves.  The error shown is the server's [detail] when there is
    one, [Invalid credentials] when the body has none, and the
    login-failed message when the call fails or has no readable body. *)
Theorem login_refused (o : Outcome JValue) :
  carries "access_token" o = false ->
  let w' := run w [SubmitLogin; Settle (nextTask w) (LoginSettled o)] in
  localStorage w' = localStorage w /\
  isLoggedIn (auth w') = isLoggedIn (auth w) /\
  currentUser (auth w') = currentUser (auth w) /\
  data w' = data w /\
  network w' = network w ++ [PostLogin (LoginData.toJSON (loginData (form w)))] /\
  inflight w' = delete (nextTask w) (<[nextTask w := AwaitLogin]> (inflight w)) /\
  authLoading (auth w') = false /\
  truthy (authError (auth w')) = true /\
  match o with
  | Fulfilled response =>
      match getProp response "detail" with
      | Some detail =>
          authError (auth w') = jsOr detail (JStr "Invalid credentials")
      | None =>
          authError (auth w') = JStr "Login failed. Please check your credentials."
      end
  | Rejected _ =>
      authError (auth w') = JStr "Login failed. Please check your credentials."
  end.
Proof.
  intros Hno w'. unfold w'. rewrite handleLogin_settle.
  unfold handleLogin_resume, handleLogin_catch.
  destruct o as [response|e]; [| cbn; repeat split].
  destruct response as [| |b|n|s|items|fields]; cbn [getProp].
  7: { unfold carries in Hno. cbn [getProp] in Hno. rewrite Hno. cbn.
       repeat split. by apply truthy_jsOr. }
  all: cbn; repeat split.
Qed.

End Login.

Lemma login_success_witness :
  localStorage
    (run (startup ∅) [SubmitLogin; Settle 0 (LoginSettled (Fulfilled loginGranted))])
    !! "auth_token" = Some "token-a" /\
  currentUser (auth
    (run (startup ∅) [SubmitLogin; Settle 0 (LoginSettled (Fulfilled loginGranted))])) =
  officerA.
Proof.
  destruct (login_success (startup ∅)
              {[ "access_token" := JStr "token-a"; "user" := officerA ]}
              "token-a")
    as (Hstore & _ & Huser & _); [reflexivity | discriminate |].
  split.
  - change loginGranted
      with (JObj {[ "access_token" := JStr "token-a"; "user" := officerA ]}).
    change (nextTask (startup ∅)) with 0%nat in Hstore.
    rewrite Hstore. apply lookup_insert_eq.
  - exact Huser.
Defined.

Lemma login_refused_witness :
  authError (auth
    (run (startup ∅) [SubmitLogin; Settle 0 (LoginSettled (Fulfilled loginRefused))])) =
  JStr "Incorrect username or password" /\
  network
    (run (startup ∅) [SubmitLogin; Settle 0 (LoginSettled (Fulfilled loginRefused))]) =
  [PostLogin (LoginData.toJSON LoginData.empty)].
Proof.
  destruct (login_refused (startup ∅) (Fulfilled loginRefused))
    as (_ & _ & _ & _ & Hnet & _ & _ & _ & Herr); [reflexivity |].
  split; [exact Herr | exact Hnet].
Defined.

(** ** Logout *)

(** X3. Logging out twice is the same as logging out once.  Logout removes
    the token and the user and empties the login form; it keeps the three
    collections, cancels no request under way, and leaves the error message
    and the registration form alone. *)
Theorem logout_idempotent (w : World) :
  handleLogout (handleLogout w) = handleLogout w /\
  localStorage (handleLogout w) !! "auth_token" = None /\
  isLoggedIn (auth (handleLogout w)) = false /\
  currentUser (auth (handleLogout w)) = JNull /\
  loginData (form (handleLogout w)) = LoginData.empty /\
  data (handleLogout w) = data w /\
  inflight (handleLogout w) = inflight w /\
  network (handleLogout w) = network w /\
  authError (auth (handleLogout w)) = authError (auth w) /\
  registerData (form (handleLogout w)) = registerData (form w).
Proof.
  split; [| split].
  - destruct w as [a f d q ls n infl nt c]. world_eval.
    by rewrite delete_delete_eq.
  - world_eval. apply lookup_delete_eq.
  - repeat split.
Qed.

(** ** Restart *)

Lemma startup_no_token (storage : gmap string string) :
  storage !! "auth_token" = None \/ storage !! "auth_token" = Some "" ->
  startup storage = initialWorld storage.
Proof.
  intros Hs. unfold startup, onMount. cbn [localStorage initialWorld].
  by destruct Hs as [-> | ->].
Qed.

(** X4. Without a usable token (none stored, or the empty string) mounting
    the component does nothing: no request, nobody awaited.  That is the
    case after every logout. *)
Theorem startup_without_token (storage : gmap string string) :
  (storage !! "auth_token" = None \/ storage !! "auth_token" = Some "" ->
   startup storage = initialWorld storage) /\
  forall w, startup (localStorage (handleLogout w)) =
            initialWorld (localStorage (handleLogout w)).
Proof.
  split; [apply startup_no_token |].
  intros w. apply startup_no_token. left. world_eval. apply lookup_delete_eq.
Qed.

Lemma startup_without_token_witness :
  network (startup {[ "auth_token" := "" ]}) = [] /\
  inflight (startup {[ "auth_token" := "" ]}) = ∅.
Proof.
  destruct (startup_without_token {[ "auth_token" := "" ]}) as [H _].
  rewrite H; [split; reflexivity | right; reflexivity].
Defined.

(** X5. The token of a successful login survives a restart: a component
    mounted on the storage that the login left verifies exactly that
    token. *)
Theorem token_survives_restart (w : World) (fields : gmap string JValue)
    (token : string) :
  fields !! "access_token" = Some (JStr token) ->
  token <> "" ->
  let w' := run w [SubmitLogin;
                   Settle (nextTask w) (LoginSettled (Fulfilled (JObj fields)))] in
  network (startup (localStorage w')) = [GetCurrentUser token] /\
  inflight (startup (localStorage w')) = {[ 0%nat := AwaitCurrentUser token ]} /\
  session (startup (localStorage w')) = Authenticating.
Proof.
  intros Htok Hne w'.
  assert (Htruthy : truthy (JStr token) = true).
  { simpl. by destruct (String.eqb_spec token ""). }
  assert (Hstore : localStorage w' = <["auth_token" := token]> (localStorage w)).
  { unfold w'.
    by rewrite handleLogin_settle, (handleLogin_resume_success _ _ _ Htok Htruthy). }
  assert (Hs : startup (localStorage w') =
               verifyToken token (initialWorld (localStorage w'))).
  { unfold startup, onMount. cbn [localStorage initialWorld].
    rewrite Hstore, lookup_insert_eq. by rewrite Htruthy. }
  rewrite Hs. unfold session. cbn.
  rewrite insert_empty, map_to_list_singleton. repeat split.
Qed.

Lemma token_survives_restart_witness :
  network (startup (localStorage
    (run (startup ∅) [SubmitLogin; Settle 0 (LoginSettled (Fulfilled loginGranted))]))) =
  [GetCurrentUser "token-a"].
Proof.
  destruct (token_survives_restart (startup ∅)
              {[ "access_token" := JStr "token-a"; "user" := officerA ]} "token-a")
    as (Hnet & _); [reflexivity | discriminate |].
  exact Hnet.
Defined.

(** ** Token verification *)

(** X6. At startup with a persisted token that [getCurrentUser] answers
    with a user (a body with a truthy [username]), the session becomes
    authenticated with that body as the user, the token stays in the
    storage, and the three dashboard requests leave with the token. *)
Theorem verified_token_authenticates (storage : gmap string string)
    (token : string) (userData : JValue) :
  storage !! "auth_token" = Some token ->
  token <> "" ->
  carries "username" (Fulfilled userData) = true ->
  let w := run (startup storage)
               [Settle 0 (CurrentUserSettled (Fulfilled userData))] in
  session w = Authenticated /\
  currentUser (auth w) = userData /\
  localStorage w = storage /\
  network w = [GetCurrentUser token; GetDashboardStats token;
               GetTourists token; GetIncidents token] /\
  inflight w !! 1%nat = Some (AwaitDashboard None None None) /\
  inflight w !! 0%nat = None /\
  data w = data (initialWorld storage).
Proof.
  intros Htoken Hne Huser w.
  assert (Hv : startup storage =
               suspend (AwaitCurrentUser token)
                 (fetch (GetCurrentUser token) (initialWorld storage))).
  { unfold startup, onMount. cbn [localStorage initialWorld].
    rewrite Htoken. simpl.
    destruct (String.eqb_spec token ""); [contradiction | reflexivity]. }
  unfold w. settle_all. rewrite Hv.
  erewrite settle_Some by apply (lookup_suspend _ (fetch _ (initialWorld storage))).
  cbn [resume]. unfold verifyToken_resume. cbn in Huser.
  destruct (getProp userData "username") as [username|]; [| discriminate].
  rewrite Huser. unfold session. cbn. repeat split.
Qed.

Lemma verified_token_authenticates_witness :
  session (run (startup staleStorage)
               [Settle 0 (CurrentUserSettled (Fulfilled officerA))]) =
  Authenticated.
Proof.
  destruct (verified_token_authenticates staleStorage "expired-token" officerA)
    as (Hs & _); [reflexivity | discriminate | reflexivity |].
  exact Hs.
Defined.

(** X7. A rejected verification removes the token from the storage whenever
    it arrives, and touches nothing else: when an officer has signed in
    meanwhile, the session stays authenticated but is persisted no
    longer. *)
Theorem late_rejection_removes_token (w : World) (id : nat) (token : string)
    (o : Outcome JValue) :
  inflight w !! id = Some (AwaitCurrentUser token) ->
  rejectsToken o ->
  let w' := step w (Settle id (CurrentUserSettled o)) in
  localStorage w' !! "auth_token" = None /\
  auth w' = auth w /\
  data w' = data w /\
  network w' = network w /\
  startup (localStorage w') = initialWorld (localStorage w').
Proof.
  intros Hid Hrej w'. unfold w'. cbn [step].
  rewrite (settle_Some _ _ _ _ Hid). cbn [resume].
  destruct (verifyToken_resume_rejected token o (finish id w) Hrej)
    as (Hauth & Hdata & Hstorage & Hnetwork & _).
  assert (Hnone : localStorage (verifyToken_resume token o (finish id w))
                    !! "auth_token" = None).
  { rewrite Hstorage. apply lookup_delete_eq. }
  repeat split; auto.
  apply startup_no_token. by left.
Qed.

Lemma late_rejection_removes_token_witness :
  isLoggedIn (auth (run (startup staleStorage)
    (loginWhileVerifying ++
     [Settle 0 (CurrentUserSettled (Fulfilled notAuthenticated))]))) = true /\
  localStorage (run (startup staleStorage)
    (loginWhileVerifying ++
     [Settle 0 (CurrentUserSettled (Fulfilled notAuthenticated))]))
    !! "auth_token" = None.
Proof.
  rewrite run_app.
  destruct (late_rejection_removes_token
              (run (startup staleStorage) loginWhileVerifying) 0
              "expired-token" (Fulfilled notAuthenticated))
    as (Hstore & Hauth & _); [reflexivity | reflexivity |].
  split; [| exact Hstore].
  change (run (run (startup staleStorage) loginWhileVerifying)
              [Settle 0 (CurrentUserSettled (Fulfilled notAuthenticated))])
    with (step (run (startup staleStorage) loginWhileVerifying)
               (Settle 0 (CurrentUserSettled (Fulfilled notAuthenticated)))).
  rewrite Hauth. reflexivity.
Defined.

(** ** The session and its user *)

Lemma no_user_step (w : World) (e : Event) :
  (isLoggedIn (auth w) = false -> currentUser (auth w) = JNull) ->
  isLoggedIn (auth (step w e)) = false -> currentUser (auth (step w e)) = JNull.
Proof.
  intros Hw.
  destruct e as [v|v|k v|q| | | | | |id r];
    unfold_handlers; repeat case_match; cbn; auto; discriminate.
Qed.

(** X8. Whatever happens after startup, a session that is not logged in
    has no user: [currentUser] is set only together with [isLoggedIn], and
    logout clears both. *)
Theorem anonymous_has_no_user (storage : gmap string string)
    (events : list Event) :
  isLoggedIn (auth (run (startup storage) events)) = false ->
  currentUser (auth (run (startup storage) events)) = JNull.
Proof.
  assert (Hstart : isLoggedIn (auth (startup storage)) = false ->
                   currentUser (auth (startup storage)) = JNull).
  { unfold startup, onMount, verifyToken. by repeat case_match. }
  generalize dependent (startup storage). intros w.
  revert w. induction events as [|e events IH]; intros w Hw; [exact Hw |].
  apply IH, no_user_step, Hw.
Qed.

Lemma anonymous_has_no_user_witness :
  currentUser (auth (run (startup ∅) (sessionA ++ [ClickLogout]))) = JNull.
Proof.
  apply (anonymous_has_no_user ∅ (sessionA ++ [ClickLogout])). reflexivity.
Defined.

(** ** Registration, continued *)

Lemma missingFields_elem (d : RegisterData.t) (k : RegisterData.key) :
  k ∈ missingFields d <->
  k ∈ requiredFields /\ trim (RegisterData.get d k) = "".
Proof.
  unfold missingFields. rewrite list_elem_of_In, filter_In, <- list_elem_of_In.
  simpl. destruct (String.eqb_spec (trim (RegisterData.get d k)) ""); simpl;
    intuition congruence.
Qed.

Lemma missingFields_nil (d : RegisterData.t) :
  missingFields d = [] <->
  forall k, k ∈ requiredFields -> trim (RegisterData.get d k) <> "".
Proof.
  split.
  - intros Hnil k Hk Hblank.
    assert (Hin : k ∈ missingFields d) by (by apply missingFields_elem).
    rewrite Hnil in Hin. inversion Hin.
  - intros Hall. destruct (missingFields d) as [|k rest] eqn:Hm; [reflexivity |].
    assert (Hin : k ∈ missingFields d) by (rewrite Hm; apply list_elem_of_here).
    apply missingFields_elem in Hin as [Hk Hblank]. by destruct (Hall k Hk).
Qed.

Lemma handleRegister_valid (w : World) :
  validRegistration (registerData (form w)) ->
  handleRegister w =
  suspend AwaitRegister
    (fetch (PostRegister (RegisterData.registrationData (registerData (form w))))
       (setAuthError (JStr "") (setAuthLoading true w))).
Proof.
  intros [Hpw Hall]. apply missingFields_nil in Hall.
  unfold handleRegister. cbv zeta. by rewrite Hpw, String.eqb_refl, Hall.
Qed.

Lemma handleRegister_invalid (w : World) :
  ~ validRegistration (registerData (form w)) ->
  network (handleRegister w) = network w /\
  inflight (handleRegister w) = inflight w /\
  authLoading (auth (handleRegister w)) = false /\
  truthy (authError (auth (handleRegister w))) = true.
Proof.
  intros Hinvalid. set (d := registerData (form w)) in *.
  destruct (String.eqb_spec (RegisterData.password d) (RegisterData.confirmPassword d))
    as [Hpw|Hpw].
  - destruct (missingFields d) as [|k rest] eqn:Hm.
    + destruct Hinvalid. split; [exact Hpw | by apply missingFields_nil].
    + rewrite (handleRegister_missing w Hpw); fold d; [| by rewrite Hm].
      repeat split.
  - rewrite (handleRegister_mismatch w Hpw). repeat split.
Qed.

(** X9. [handleRegister] sends the registration exactly when the form is
    valid (passwords equal, no required field blank after trimming): then
    one POST /auth/register leaves with the form's data and the form stays
    in the loading state until the answer; otherwise nothing leaves and the
    form shows an error at once. *)
Theorem register_sends_iff_valid (w : World) :
  let d := registerData (form w) in
  (validRegistration d <->
   network (handleRegister w) =
   network w ++ [PostRegister (RegisterData.registrationData d)]) /\
  (validRegistration d ->
   inflight (handleRegister w) = <[nextTask w := AwaitRegister]> (inflight w) /\
   authLoading (auth (handleRegister w)) = true /\
   authError (auth (handleRegister w)) = JStr "") /\
  (~ validRegistration d ->
   network (handleRegister w) = network w /\
   inflight (handleRegister w) = inflight w /\
   authLoading (auth (handleRegister w)) = false /\
   truthy (authError (auth (handleRegister w))) = true).
Proof.
  intros d. split; [| split].
  - split.
    + intros Hvalid. by rewrite (handleRegister_valid w Hvalid).
    + intros Hnet.
      destruct (String.eqb_spec (RegisterData.password d)
                                (RegisterData.confirmPassword d)) as [Hpw|Hpw].
      * split; [exact Hpw |]. apply missingFields_nil.
        destruct (missingFields d) as [|k rest] eqn:Hm; [reflexivity |].
        rewrite (handleRegister_missing w Hpw) in Hnet; fold d; [| by rewrite Hm].
        cbn in Hnet. apply (f_equal length) in Hnet.
        rewrite length_app in Hnet. simpl in Hnet. lia.
      * rewrite (handleRegister_mismatch w Hpw) in Hnet.
        cbn in Hnet. apply (f_equal length) in Hnet.
        rewrite length_app in Hnet. simpl in Hnet. lia.
  - intros Hvalid. by rewrite (handleRegister_valid w Hvalid).
  - apply handleRegister_invalid.
Qed.

Lemma register_sends_iff_valid_witness :
  network registrationSent =
  [PostRegister (RegisterData.registrationData (filledForm "abc123" "abc123"))] /\
  network (handleRegister (registering (passwordOnlyForm "abc123"))) = [].
Proof.
  destruct (register_sends_iff_valid (registering (filledForm "abc123" "abc123")))
    as ([Hsend _] & _ & _).
  destruct (register_sends_iff_valid (registering (passwordOnlyForm "abc123")))
    as (_ & _ & Hnot).
  split.
  - apply Hsend. split; [reflexivity |].
    intros k Hk. unfold requiredFields in Hk.
    rewrite !elem_of_cons, elem_of_nil in Hk.
    repeat destruct Hk as [->|Hk]; try discriminate. contradiction.
  - apply Hnot. intros [_ Hall].
    apply (Hall RegisterData.Username); [apply list_elem_of_here | reflexivity].
Defined.

(** X10. A required field is reported missing exactly when it is blank:
    empty or made of white space only (spaces, tabs, line breaks, no-break
    spaces).  The role and the confirmation are never reported. *)
Theorem missing_iff_blank (d : RegisterData.t) (k : RegisterData.key) :
  (k ∈ missingFields d <->
   k ∈ requiredFields /\ blank (RegisterData.get d k) = true) /\
  (RegisterData.Role ∉ missingFields d) /\
  (RegisterData.ConfirmPassword ∉ missingFields d).
Proof.
  split; [by rewrite missingFields_elem, trim_empty_iff |].
  split; intros Hin; apply missingFields_elem in Hin as [Hreq _];
    unfold requiredFields in Hreq; rewrite !elem_of_cons, elem_of_nil in Hreq;
    intuition discriminate.
Qed.

(** X11. The body of POST /auth/register carries the nine fields of the
    form other than the confirmation, each with the value typed, and never
    the confirmation. *)
Theorem registration_body_omits_confirmation (d : RegisterData.t) :
  exists fields,
    RegisterData.registrationData d = JObj fields /\
    fields !! "confirmPassword" = None /\
    size fields = 9%nat /\
    forall k, k <> RegisterData.ConfirmPassword ->
      fields !! RegisterData.keyName k = Some (JStr (RegisterData.get d k)).
Proof.
  eexists. split; [reflexivity |]. split; [reflexivity |].
  split; [reflexivity |].
  intros k Hk. destruct k; try reflexivity. contradiction.
Qed.

Lemma registration_body_omits_confirmation_witness :
  getProp (RegisterData.registrationData (filledForm "abc123" "abc123")) "password" =
    Some (JStr "abc123") /\
  getProp (RegisterData.registrationData (filledForm "abc123" "abc123"))
    "confirmPassword" = Some JUndefined.
Proof.
  destruct (registration_body_omits_confirmation (filledForm "abc123" "abc123"))
    as (fields & Hbody & Hnone & _ & Hall).
  assert (Hp : fields !! "password" = Some (JStr "abc123")).
  { apply (Hall RegisterData.Password). discriminate. }
  rewrite Hbody. cbn [getProp]. rewrite Hnone, Hp. split; reflexivity.
Defined.

(** X12. The answer to a registration never authenticates: it stores no
    token, logs nobody in, sends nothing and leaves the three collections
    alone.  Only an answer with a truthy [username] empties the form and
    returns to the login screen with the success message; any other answer
    keeps what the officer typed and shows an error. *)
Theorem registration_never_authenticates (w : World) (id : nat)
    (o : Outcome JValue) :
  inflight w !! id = Some AwaitRegister ->
  let w' := step w (Settle id (RegisterSettled o)) in
  isLoggedIn (auth w') = isLoggedIn (auth w) /\
  currentUser (auth w') = currentUser (auth w) /\
  localStorage w' = localStorage w /\
  network w' = network w /\
  data w' = data w /\
  inflight w' = delete id (inflight w) /\
  authLoading (auth w') = false /\
  truthy (authError (auth w')) = true /\
  (if carries "username" o
   then registerData (form w') = RegisterData.empty /\
        showRegister (auth w') = false /\
        authError (auth w') =
          JStr "Registration successful! Please login with your credentials."
   else registerData (form w') = registerData (form w) /\
        showRegister (auth w') = showRegister (auth w)).
Proof.
  intros Hid w'. unfold w'. cbn [step].
  rewrite (settle_Some _ _ _ _ Hid). cbn [resume].
  unfold handleRegister_resume, handleRegister_catch, carries.
  destruct o as [response|e]; [| cbn; repeat split].
  destruct response as [| |b|n|s|items|fields]; cbn [getProp].
  7: { cbn [default Datatypes.id].
       destruct (truthy (default JUndefined (fields !! "username"))) eqn:Hu;
         cbn; repeat split. by apply truthy_jsOr. }
  all: cbn; repeat split.
Qed.

Lemma registration_never_authenticates_witness :
  isLoggedIn (auth (step registrationSent
    (Settle 0 (RegisterSettled (Fulfilled registrationAccepted))))) = false /\
  registerData (form (step registrationSent
    (Settle 0 (RegisterSettled (Fulfilled registrationRefused))))) =
  filledForm "abc123" "abc123".
Proof.
  destruct (registration_never_authenticates registrationSent 0
              (Fulfilled registrationAccepted))
    as (Hlogged & _); [reflexivity |].
  destruct (registration_never_authenticates registrationSent 0
              (Fulfilled registrationRefused))
    as (_ & _ & _ & _ & _ & _ & _ & _ & Hform); [reflexivity |].
  split; [rewrite Hlogged; reflexivity |].
  assert (Hc : carries "username" (Fulfilled registrationRefused) = false)
    by reflexivity.
  rewrite Hc in Hform. destruct Hform as [Hform _]. rewrite Hform.
  reflexivity.
Defined.

(** X13. Typing into a field of the registration form changes that field
    and no other, and nothing else of the component. *)
Theorem change_register_field (w : World) (k : RegisterData.key) (v : string) :
  let w' := step w (ChangeRegister k v) in
  RegisterData.get (registerData (form w')) k = v /\
  (forall k', k' <> k ->
     RegisterData.get (registerData (form w')) k' =
     RegisterData.get (registerData (form w)) k') /\
  loginData (form w') = loginData (form w) /\
  auth w' = auth w /\ data w' = data w /\ network w' = network w /\
  inflight w' = inflight w /\ localStorage w' = localStorage w.
Proof.
  cbn. split; [by destruct k |]. split; [| repeat split].
  intros k' Hne. destruct k, k'; try reflexivity; contradiction.
Qed.

Lemma change_register_field_witness :
  RegisterData.get
    (registerData (form (step (registering (passwordOnlyForm "abc123"))
                              (ChangeRegister RegisterData.Username "asha"))))
    RegisterData.Password = "abc123".
Proof.
  destruct (change_register_field (registering (passwordOnlyForm "abc123"))
              RegisterData.Username "asha") as (_ & Hothers & _).
  rewrite (Hothers RegisterData.Password); [reflexivity | discriminate].
Defined.

(** ** Tourist list, continued *)

Section Filters.

Context {A : Type}.

Lemma filter_filter_implies (f g : A -> bool) (l : list A) :
  (forall x, g x = true -> f x = true) ->
  List.filter g (List.filter f l) = List.filter g l.
Proof.
  intros Himp. induction l as [|x l IH]; [reflexivity |]. simpl.
  destruct (f x) eqn:Hf; simpl.
  - by rewrite IH.
  - destruct (g x) eqn:Hg; [| exact IH].
    apply Himp in Hg. congruence.
Qed.

Lemma filter_filter_comm (f g : A -> bool) (l : list A) :
  List.filter f (List.filter g l) = List.filter g (List.filter f l).
Proof.
  induction l as [|x l IH]; [reflexivity |]. simpl.
  destruct (f x) eqn:Hf, (g x) eqn:Hg; simpl; rewrite ?Hf, ?Hg, IH; reflexivity.
Qed.

Lemma filter_length_le (f : A -> bool) (l : list A) :
  (length (List.filter f l) <= length l)%nat.
Proof.
  induction l as [|x l IH]; [reflexivity |]. simpl.
  destruct (f x); simpl; lia.
Qed.

End Filters.

(** X14. With a query of Latin-1 characters, typing more such characters
    at either end never brings rows back: the rows for the longer query are
    found among the rows for the shorter one, and are no more. *)
Theorem search_narrows (T : list Tourist.t) (q r : Text.t) :
  isLatin1 q = true -> isLatin1 r = true ->
  filterTourists T (q ++ r) = filterTourists (filterTourists T q) (q ++ r) /\
  filterTourists T (r ++ q) = filterTourists (filterTourists T q) (r ++ q) /\
  (length (filterTourists T (q ++ r)) <= length (filterTourists T q))%nat /\
  (length (filterTourists T (r ++ q)) <= length (filterTourists T q))%nat /\
  (length (filterTourists T q) <= length T)%nat.
Proof.
  intros Hq Hr.
  assert (H1 : filterTourists T (q ++ r) =
               filterTourists (filterTourists T q) (q ++ r)).
  { unfold filterTourists. symmetry. apply filter_filter_implies.
    intros t Ht. rewrite toLowerCase_app_latin1 in Ht by done.
    by apply text_includes_narrow in Ht as [Ht _]. }
  assert (H2 : filterTourists T (r ++ q) =
               filterTourists (filterTourists T q) (r ++ q)).
  { unfold filterTourists. symmetry. apply filter_filter_implies.
    intros t Ht. rewrite toLowerCase_app_latin1 in Ht by done.
    by apply text_includes_narrow in Ht as [_ Ht]. }
  split; [exact H1 |]. split; [exact H2 |].
  split; [rewrite H1; apply filter_length_le |].
  split; [rewrite H2; apply filter_length_le |].
  apply filter_length_le.
Qed.

Lemma search_narrows_witness :
  (length (filterTourists mockTourists (Text.latin1 "jo" ++ Text.latin1 "hn"))
   <= length (filterTourists mockTourists "jo"))%nat.
Proof.
  destruct (search_narrows mockTourists "jo" "hn") as (_ & _ & H & _);
    [reflexivity | reflexivity |].
  exact H.
Defined.



(** X16. Searching composes: searching the rows found again with the same
    query changes nothing, two searches give the same rows in either order,
    and the rows found in two lists put together are the rows found in
    each. *)
Theorem search_composes (T T' : list Tourist.t) (q q' : Text.t) :
  filterTourists (filterTourists T q) q = filterTourists T q /\
  filterTourists (filterTourists T q) q' = filterTourists (filterTourists T q') q /\
  filterTourists (T ++ T') q = filterTourists T q ++ filterTourists T' q.
Proof.
  unfold filterTourists. split; [| split].
  - by apply filter_filter_implies.
  - apply filter_filter_comm.
  - apply List.filter_app.
Qed.

(** ** Stats cards, continued *)

Lemma card_throws (stats : JValue) (key : string) :
  getProp stats key = None <-> stats = JNull \/ stats = JUndefined.
Proof.
  destruct stats; simpl; split; try discriminate; try (intros [H|H]; discriminate);
    auto.
Qed.




Section Cards.

Variables (stats : JValue) (key : string) (fallback v : JValue).

(** A card is the server's value or, when that is falsy, the substitute. *)
Hypothesis Hcard :
  (x ← getProp stats key; Some (jsOr x fallback)) = Some v.

Lemma card_truthy : truthy fallback = true -> truthy v = true.
Proof.
  intros Hf. destruct (getProp stats key) as [x|]; [| discriminate].
  injection Hcard as <-. by apply truthy_jsOr.
Qed.

Lemma card_falsy : truthy v = false -> v = fallback.
Proof.
  intros Hv. destruct (getProp stats key) as [x|]; [| discriminate].
  injection Hcard as <-. unfold jsOr in *.
  destruct (truthy x) eqn:Hx; [congruence | reflexivity].
Qed.

End Cards.

Lemma falsy_count (n : nat) : truthy (JNum (Z.of_nat n)) = false -> n = 0%nat.
Proof.
  simpl. destruct (Z.eqb_spec (Z.of_nat n) 0); [lia | discriminate].
Qed.

(** X18. The E-FIRs Today and the Officers Online cards never show a falsy
    value, so never 0.  The other three cards show a falsy value only when
    it is the 0 of the local count: no tourist at all, no active incident,
    no safe tourist. *)
Theorem cards_hide_zero (d : DataState) (v : JValue) :
  (efirsTodayCard d = Some v -> truthy v = true) /\
  (officersOnlineCard d = Some v -> truthy v = true) /\
  (activeTouristsCard d = Some v -> truthy v = false ->
   v = JNum 0 /\ tourists d = []) /\
  (activeIncidentsCard d = Some v -> truthy v = false ->
   v = JNum 0 /\
   countStatus "active" (Incident.status <$> incidents d) = 0%nat) /\
  (safeTouristsCard d = Some v -> truthy v = false ->
   v = JNum 0 /\
   countStatus "safe" (Tourist.status <$> tourists d) = 0%nat).
Proof.
  split; [| split; [| split; [| split]]].
  - intros H. by apply (card_truthy _ _ _ _ H).
  - intros H. by apply (card_truthy _ _ _ _ H).
  - intros H Hv. pose proof (card_falsy _ _ _ _ H Hv) as ->.
    apply falsy_count in Hv. rewrite Hv. split; [reflexivity |].
    by destruct (tourists d).
  - intros H Hv. pose proof (card_falsy _ _ _ _ H Hv) as ->.
    apply falsy_count in Hv. rewrite Hv. split; [reflexivity |].
    by rewrite <- filter_length_countStatus.
  - intros H Hv. pose proof (card_falsy _ _ _ _ H Hv) as ->.
    apply falsy_count in Hv. rewrite Hv. split; [reflexivity |].
    by rewrite <- filter_length_countStatus.
Qed.

Lemma cards_hide_zero_witness :
  efirsTodayCard emptyDay = Some (JNum 3) /\
  activeTouristsCard emptyDay = Some (JNum 0) /\
  tourists emptyDay = [].
Proof.
  destruct (cards_hide_zero emptyDay (JNum 0)) as (_ & _ & H & _).
  destruct H as [_ Hempty]; [reflexivity | reflexivity |].
  split; [reflexivity |]. split; [reflexivity | exact Hempty].
Defined.

(** ** Form requests *)

Ltac world_cbn_in H :=
  cbn [setLoginData setCurrentUser setIsLoggedIn setShowRegister
     setAuthLoading setAuthError setRegisterData setTourists setIncidents
     setDashboardStats setSearchQuery setItem removeItem fetch suspend setTask
     finish consoleError updForm updAuth updData
     auth form data searchQuery localStorage network inflight nextTask console
     isLoggedIn showRegister currentUser authLoading authError
     loginData registerData tourists incidents dashboardStats] in H.

Ltac world_cbn :=
  cbn [setLoginData setCurrentUser setIsLoggedIn setShowRegister
     setAuthLoading setAuthError setRegisterData setTourists setIncidents
     setDashboardStats setSearchQuery setItem removeItem fetch suspend setTask
     finish consoleError updForm updAuth updData
     auth form data searchQuery localStorage network inflight nextTask console
     isLoggedIn showRegister currentUser authLoading authError
     loginData registerData tourists incidents dashboardStats].

Ltac split_lookup H :=
  repeat first
    [ apply lookup_insert_Some in H as [[<- <-]|[? H]]
    | apply lookup_delete_Some in H as [? H] ].

Lemma oneFormRequest_submit (w : World) (t : Task) (r : Request) (x : World) :
  oneFormRequest w ->
  authLoading (auth w) = false ->
  inflight x = inflight w -> nextTask x = nextTask w ->
  authLoading (auth x) = true ->
  oneFormRequest (suspend t (fetch r x)).
Proof.
  intros [Hload Huniq] Hav Hinf Hnext Hflag.
  assert (Hnone : forall i t, inflight w !! i = Some t -> formTask t = false).
  { intros i t' Hi. destruct (formTask t') eqn:Hf; [| reflexivity].
    rewrite (Hload i t' Hi Hf) in Hav. discriminate. }
  split.
  - intros i t' Hi Hf. world_cbn. exact Hflag.
  - intros i j ti tj Hi Hj Hfi Hfj. world_cbn_in Hi. world_cbn_in Hj.
    rewrite Hinf in Hi, Hj.
    split_lookup Hi; split_lookup Hj; try reflexivity.
    + rewrite (Hnone _ _ Hj) in Hfj. discriminate.
    + rewrite (Hnone _ _ Hi) in Hfi. discriminate.
    + rewrite (Hnone _ _ Hi) in Hfi. discriminate.
Qed.

Lemma oneFormRequest_answer (w x : World) (id : nat) (task : Task) :
  oneFormRequest w ->
  inflight w !! id = Some task ->
  formTask task = true ->
  (forall i t, inflight x !! i = Some t -> formTask t = true ->
               i <> id /\ inflight w !! i = Some t) ->
  oneFormRequest x.
Proof.
  intros [Hload Huniq] Hid Hform Hkept.
  assert (Hnone : forall i t, inflight x !! i = Some t -> formTask t = false).
  { intros i t Hi. destruct (formTask t) eqn:Hf; [| reflexivity].
    destruct (Hkept i t Hi Hf) as [Hne Hw].
    destruct Hne. exact (Huniq i id t task Hw Hid Hf Hform). }
  split.
  - intros i t Hi Hf. rewrite (Hnone i t Hi) in Hf. discriminate.
  - intros i j ti tj Hi Hj Hfi Hfj. rewrite (Hnone i ti Hi) in Hfi. discriminate.
Qed.

Lemma oneFormRequest_other (w x : World) :
  oneFormRequest w ->
  authLoading (auth x) = authLoading (auth w) ->
  (forall i t, inflight x !! i = Some t -> formTask t = true ->
               inflight w !! i = Some t) ->
  oneFormRequest x.
Proof.
  intros [Hload Huniq] Hflag Hkept. split.
  - intros i t Hi Hf. rewrite Hflag. eauto.
  - intros i j ti tj Hi Hj Hfi Hfj. eauto.
Qed.

Ltac kept_tasks :=
  let i := fresh "i" in
  let t := fresh "t" in
  let Hi := fresh "Hi" in
  let Hf := fresh "Hf" in
  intros i t Hi Hf; world_cbn_in Hi; split_lookup Hi;
  try discriminate Hf; auto.

Lemma oneFormRequest_step (w : World) (e : Event) :
  oneFormRequest w -> available w e = true -> oneFormRequest (step w e).
Proof.
  intros Hw Hav.
  destruct e as [v|v|k v|q| | | | | |id r]; cbn [available] in Hav.
  1-6, 9: by apply (oneFormRequest_other w).
  - (* SubmitRegister *)
    destruct (screen w); try discriminate Hav.
    apply negb_true_iff in Hav.
    cbn [step]. unfold handleRegister. cbv zeta. repeat case_match.
    + apply (oneFormRequest_other w); [exact Hw | by rewrite Hav | auto].
    + apply (oneFormRequest_other w); [exact Hw | by rewrite Hav | auto].
    + by apply (oneFormRequest_submit w).
  - (* SubmitLogin *)
    destruct (screen w); try discriminate Hav.
    apply negb_true_iff in Hav.
    cbn [step]. unfold handleLogin. cbv zeta.
    by apply (oneFormRequest_submit w).
  - (* Settle *)
    destruct (inflight w !! id) as [task|] eqn:Hid; [| discriminate Hav].
    cbn [step]. rewrite (settle_Some _ _ _ _ Hid).
    destruct task as [token|s t i| |].
    + destruct r as [o|o|o|o|o|o]; try discriminate Hav.
      cbn [resume]. unfold verifyToken_resume, verifyToken_catch, loadDashboardData.
      repeat case_match;
        (apply (oneFormRequest_other w); [exact Hw | reflexivity | kept_tasks]).
    + destruct r as [o|o|o|o|o|o];
        unfold resume, promiseAll, loadDashboardData_resume;
        repeat case_match; try discriminate Hav;
        (apply (oneFormRequest_other w); [exact Hw | reflexivity | kept_tasks]).
    + destruct r as [o|o|o|o|o|o]; try discriminate Hav.
      cbn [resume]. unfold handleRegister_resume, handleRegister_catch.
      repeat case_match;
        (apply (oneFormRequest_answer w _ id AwaitRegister);
         [exact Hw | exact Hid | reflexivity | kept_tasks]).
    + destruct r as [o|o|o|o|o|o]; try discriminate Hav.
      cbn [resume].
      unfold handleLogin_resume, handleLogin_catch, loadDashboardData.
      repeat case_match;
        (apply (oneFormRequest_answer w _ id AwaitLogin);
         [exact Hw | exact Hid | reflexivity | kept_tasks]).
Qed.

(** X19. In every run that the rendered controls permit, at most one form
    request (login or registration) awaits its answer, and while a submit
    button is enabled none does: a form is not submitted twice. *)
Theorem one_form_request_at_a_time (storage : gmap string string)
    (events : list Event) :
  feasible (startup storage) events = true ->
  oneFormRequest (run (startup storage) events).
Proof.
  assert (Hstart : oneFormRequest (startup storage)).
  { unfold startup, onMount, verifyToken.
    repeat case_match; (split; [intros i t Hi Hf | intros i j ti tj Hi Hj Hfi Hfj]);
      world_cbn_in Hi; split_lookup Hi; try discriminate;
      rewrite lookup_empty in Hi; discriminate. }
  generalize dependent (startup storage). intros w. revert w.
  induction events as [|e events IH]; intros w Hw Hfeasible; [exact Hw |].
  cbn [feasible] in Hfeasible. apply andb_true_iff in Hfeasible as [Hav Hrest].
  apply IH; [by apply oneFormRequest_step | exact Hrest].
Qed.

Lemma one_form_request_at_a_time_witness :
  oneFormRequest
    (run (startup ∅) (sessionA ++ sessionB ++ cycleBCompletes)).
Proof.
  apply one_form_request_at_a_time. vm_compute. reflexivity.
Defined.

(** ** Refresh cycles, continued *)

(** X20. The three collections change in one way only: the arrival that
    completes a refresh cycle replaces all three together with the results
    of that one cycle.  No action of the officer and no other arrival
    changes any of them. *)
Theorem collections_replaced_wholesale (w : World) (e : Event) :
  data (step w e) <> data w ->
  exists id r s t i s' t' i',
    e = Settle id r /\
    inflight w !! id = Some (AwaitDashboard s t i) /\
    data (step w e) = mkData t' i' s' /\
    (s = Some s' \/ r = StatsSettled (Fulfilled s')) /\
    (t = Some t' \/ r = TouristsSettled (Fulfilled t')) /\
    (i = Some i' \/ r = IncidentsSettled (Fulfilled i')).
Proof.
  intros Hchanged. by destruct (data_replaced_wholesale w e) as [Hsame|Hnew].
Qed.

Lemma collections_replaced_wholesale_witness :
  data (step twoArrived (Settle 1 (IncidentsSettled (Fulfilled incidentsA)))) =
  mkData touristsA incidentsA statsA.
Proof.
  destruct (collections_replaced_wholesale twoArrived
              (Settle 1 (IncidentsSettled (Fulfilled incidentsA))))
    as (id & r & s & t & i & s' & t' & i' & _).
  - intros H. apply (f_equal (fun d => length (tourists d))) in H.
    vm_compute in H. discriminate H.
  - reflexivity.
Defined.

Lemma userAction_keeps_data (w : World) (e : Event) :
  userAction e = true -> data (step w e) = data w.
Proof.
  intros He. destruct (data_replaced_wholesale w e) as [Hsame|Hnew];
    [exact Hsame |].
  destruct Hnew as (id & r & s & t & i & s' & t' & i' & -> & _).
  discriminate He.
Qed.

(** X21. A refresh cycle one of whose requests never succeeds leaves the
    three collections as they were, also when the officer keeps working
    between the arrivals of its responses and whatever the other two
    requests bring. *)
Theorem failed_refresh_with_user_activity (w : World) (id : nat)
    (k : DashboardRequest) (events : list Event) :
  wellFormed w ->
  inflight w !! id = Some (AwaitDashboard None None None) ->
  (forall e, e ∈ events -> settles id e = true \/ userAction e = true) ->
  neverSucceeds id k events ->
  data (run w events) = data w.
Proof.
  intros Hw Hid Honly Hnever.
  assert (Hu : unfinished id k w).
  { split; [exact Hw |]. split; [eauto |]. rewrite Hid. by destruct k. }
  clear Hw Hid. revert w Hu.
  induction events as [|e events IH]; intros w Hu; [reflexivity |].
  destruct (unfinished_step id k w e Hu) as [Hu' Hdata].
  { intros r ->. apply Hnever, list_elem_of_here. }
  cbn [run fold_left]. change (fold_left step events (step w e))
    with (run (step w e) events).
  rewrite IH; [| | | exact Hu'].
  - destruct (Honly e (list_elem_of_here _ _)) as [Hs|Ha];
      [by apply Hdata | by apply userAction_keeps_data].
  - intros e' He'. apply Honly. by apply list_elem_of_further.
  - intros r Hin. apply Hnever. by apply list_elem_of_further.
Qed.

Lemma failed_refresh_with_user_activity_witness :
  data (run signedIn brokenCycle) = data signedIn.
Proof.
  apply (failed_refresh_with_user_activity signedIn 1 TouristsRequest).
  - apply wellFormed_run, wellFormed_startup.
  - reflexivity.
  - intros e He. unfold brokenCycle in He.
    rewrite !elem_of_cons, elem_of_nil in He.
    destruct He as [->|[->|[->|[->|[]]]]]; auto.
  - intros r Hin Hk. unfold brokenCycle in Hin.
    rewrite !elem_of_cons, elem_of_nil in Hin.
    destruct Hin as [Hin|[Hin|[Hin|[Hin|Hin]]]]; try discriminate Hin;
      try contradiction; injection Hin as ->; try discriminate Hk; reflexivity.
Defined.
